(** * repose.py: heart rate, respiratory rate and body position from a
      Holter recording

    A shallow embedding of [src/repose.py].  Numbers are IEEE binary64
    values (Rocq's primitive floats, the type behind Python's [float] and
    numpy's [float64]); Python integers are [Z]; a numpy array or a Python
    list is a [list]; the sample-rate dictionary is a [gmap string Z]; an
    exception is the [Raise] branch of [result].

    The routines of numpy, scipy and pandas that the program calls without
    defining them (the Butterworth design, [lfilter], the real FFT, the
    percentile, the median, the mean, the resampling, [arcsin], [arccos])
    are the variables of Section [Repose]: every statement there holds for
    whatever these routines compute.  Module [Sample] gives one concrete
    routine for each, used to run the definitions on concrete recordings. *)

From Stdlib Require Import ZArith List Bool Floats Lia.
From stdpp Require Import base option list strings gmap.
Import ListNotations.

Set Warnings "-inexact-float".
Local Open Scope Z_scope.

(* ===================================================================== *)
(** ** Python run time: exceptions, [range], indexing, slicing            *)
(* ===================================================================== *)

(** The built-in exception classes the program can raise. *)
Inductive exn : Type :=
| ZeroDivisionError
| IndexError
| KeyError
| ValueError.

Definition exn_name (e : exn) : string :=
  match e with
  | ZeroDivisionError => "ZeroDivisionError"
  | IndexError => "IndexError"
  | KeyError => "KeyError"
  | ValueError => "ValueError"
  end.

Inductive result (A : Type) : Type :=
| Ok (a : A)
| Raise (e : exn).
Arguments Ok {A} a.
Arguments Raise {A} e.

#[global] Instance result_ret : MRet result := fun _ a => Ok a.
#[global] Instance result_bind : MBind result := fun _ _ f m =>
  match m with
  | Ok a => f a
  | Raise e => Raise e
  end.

(** A [for] loop that builds one value per iteration and stops at the first
    exception. *)
Fixpoint for_each {A B : Type} (body : A -> result B) (l : list A) : result (list B) :=
  match l with
  | [] => Ok []
  | x :: l' =>
      y ← body x;
      ys ← for_each body l';
      Ok (y :: ys)
  end.

(** [range(start, stop, step)]: [ValueError] on a zero step, otherwise
    [start, start + step, ...] while short of [stop] (beyond it, for a
    negative step). *)
Definition range_length (start stop step : Z) : Z :=
  if 0 <? step then (stop - start + step - 1) / step
  else (start - stop - step - 1) / (- step).

Definition py_range (start stop step : Z) : result (list Z) :=
  if step =? 0 then Raise ValueError
  else Ok (map (fun k => start + Z.of_nat k * step)
               (seq 0 (Z.to_nat (range_length start stop step)))).

(** [len(l)] as a Python integer. *)
Definition len {A : Type} (l : list A) : Z := Z.of_nat (length l).

(** [l[i]]: a negative index counts from the end; out of range raises. *)
Definition py_index {A : Type} (l : list A) (i : Z) : result A :=
  let j := if i <? 0 then i + len l else i in
  if j <? 0 then Raise IndexError
  else match l !! Z.to_nat j with
       | Some x => Ok x
       | None => Raise IndexError
       end.

(** [l[lo:hi]]: each bound is taken from the end when negative and clamped
    to the list. *)
Definition slice_bound (n i : Z) : Z :=
  if i <? 0 then Z.max 0 (i + n) else Z.min i n.

Definition py_slice {A : Type} (l : list A) (lo hi : Z) : list A :=
  let a := slice_bound (len l) lo in
  let b := slice_bound (len l) hi in
  take (Z.to_nat (b - a)) (drop (Z.to_nat a) l).

(** [d[key]] on a dictionary. *)
Definition py_getitem (d : gmap string Z) (key : string) : result Z :=
  match d !! key with
  | Some v => Ok v
  | None => Raise KeyError
  end.

(* ===================================================================== *)
(** ** Floats and the numpy operations that are plain arithmetic          *)
(* ===================================================================== *)

(** An integer converted to binary64 (round to nearest). *)
Definition float_of_Z (z : Z) : float :=
  SF2Prim (binary_normalize prec emax z 0 false).

(** [a / b] on Python floats: division by zero raises. *)
Definition py_truediv (a b : float) : result float :=
  if (b =? 0)%float then Raise ZeroDivisionError else Ok (a / b)%float.

Definition np_pi : float := 0x1.921fb54442d18p+1%float.

(** [np.diff]: first differences, one element fewer (none for an array of
    fewer than two elements). *)
Fixpoint np_diff (a : list float) : list float :=
  match a with
  | x :: ((y :: _) as a') => (y - x)%float :: np_diff a'
  | _ => []
  end.

(** [np.diff] on an array of integers. *)
Fixpoint np_diff_int (a : list Z) : list Z :=
  match a with
  | x :: ((y :: _) as a') => (y - x) :: np_diff_int a'
  | _ => []
  end.

(** Unary minus on an array. *)
Definition np_negative (a : list float) : list float := map PrimFloat.opp a.

(** [np.append(a, v)]: a new array; [a] itself is left as it was. *)
Definition np_append (a : list float) (v : float) : list float := a ++ [v].

(** [np.clip(x, lo, hi)] on a scalar: [min(max(x, lo), hi)], a NaN passing
    through. *)
Definition np_clip (x lo hi : float) : float :=
  let m := if is_nan x then x else if (lo <? x)%float then x else lo in
  if is_nan m then m else if (m <? hi)%float then m else hi.

(** [np.sign]: 1, -1 or 0 by the sign of the argument, a NaN passing
    through. *)
Definition np_sign (x : float) : float :=
  if (0 <? x)%float then 1%float
  else if (x <? 0)%float then (-1)%float
  else if (x =? 0)%float then 0%float
  else x.

(** [np.argmax]: the first index holding the largest value; the first NaN
    when there is one; [ValueError] on an empty array.  The scan keeps the
    running maximum [mp] at index [best] and moves on every element that is
    not [<= mp]. *)
Fixpoint argmax_scan (a : list float) (i : Z) (mp : float) (best : Z) : Z :=
  match a with
  | [] => best
  | x :: a' =>
      if (x <=? mp)%float then argmax_scan a' (i + 1) mp best
      else if is_nan x then i
      else argmax_scan a' (i + 1) x i
  end.

Definition np_argmax (a : list float) : result Z :=
  match a with
  | [] => Raise ValueError
  | x :: a' => if is_nan x then Ok 0 else Ok (argmax_scan a' 1 x 0)
  end.

(** [np.max]: the largest value, a NaN winning over everything. *)
Definition np_maximum (x y : float) : float :=
  if (y <=? x)%float || is_nan x then x else y.

Definition np_max (a : list float) : result float :=
  match a with
  | [] => Raise ValueError
  | x :: a' => Ok (fold_left np_maximum a' x)
  end.

(** [np.fft.rfftfreq(n, d)]: the bin frequencies [k / (n * d)] for
    [k = 0 .. n // 2]. *)
Definition np_rfftfreq (n : Z) (d : float) : result (list float) :=
  val ← py_truediv 1 (float_of_Z n * d)%float;
  Ok (map (fun k => (float_of_Z (Z.of_nat k) * val)%float)
          (seq 0 (Z.to_nat (n / 2 + 1)))).

(** The arguments [arcsin] and [arccos] are defined on. *)
Definition in_domain (a : float) : bool := ((-1 <=? a) && (a <=? 1))%float.

(** The check [scipy.signal.butter] makes on the two critical frequencies
    of a digital band-pass design before it computes anything: it raises
    [ValueError] when one of them is not above 0, when the first is not
    below the second, or when one of them is not below 1. *)
Definition butter_band_rejected (low high : float) : bool :=
  ((low <=? 0) || (high <=? 0) || negb (low <? high) || (1 <=? low) || (1 <=? high))%float.

(* ===================================================================== *)
(** ** Concrete numeric routines                                          *)
(* ===================================================================== *)

(** One executable routine for each library call of the program.  They
    follow the textbook definitions (sequential sums, linear interpolation
    between order statistics, the direct-form recurrence, the discrete
    Fourier sum, power series), not any library's rounding; the theorems of
    Section [Repose] do not depend on them. *)
Module Sample.

Fixpoint insert_sorted (x : float) (l : list float) : list float :=
  match l with
  | [] => [x]
  | y :: l' => if (x <=? y)%float then x :: l else y :: insert_sorted x l'
  end.

Definition sort (l : list float) : list float :=
  fold_right insert_sorted [] l.

(** The integer part of a non-negative finite float. *)
Definition floor (v : float) : Z :=
  match Prim2SF v with
  | S754_finite false m e => Z.shiftl (Zpos m) e
  | _ => 0
  end.

Definition mean (a : list float) : float :=
  (fold_left PrimFloat.add a 0 / float_of_Z (len a))%float.

(** The [q]-th percentile, interpolating linearly between the two order
    statistics around position [(n - 1) * q / 100]; NaN as soon as the
    array holds a NaN. *)
Definition percentile (a : list float) (q : float) : result float :=
  let s := sort a in
  match s with
  | [] => Raise IndexError
  | x :: _ =>
      if existsb is_nan a then Ok nan
      else
        let pos := (float_of_Z (len s - 1) * (q / 100))%float in
        let k := floor pos in
        let t := (pos - float_of_Z k)%float in
        let lo := nth (Z.to_nat k) s x in
        let hi := nth (Z.to_nat (Z.min (k + 1) (len s - 1))) s x in
        Ok (lo + (hi - lo) * t)%float
  end.

Definition median (a : list float) : result float :=
  let s := sort a in
  let n := len s in
  if n =? 0 then Ok nan
  else if existsb is_nan a then Ok nan
  else if Z.odd n then Ok (nth (Z.to_nat (n / 2)) s nan)
  else Ok ((nth (Z.to_nat (n / 2 - 1)) s nan + nth (Z.to_nat (n / 2)) s nan) / 2)%float.

(** The recursive filter [a0 y[n] = sum b[k] x[n-k] - sum a[k] y[n-k]] in
    transposed direct form II: [z] holds the delayed partial sums. *)
Definition lfilter_step (b a : list float) (a0 : float) (z : list float) (x : float)
  : float * list float :=
  let y := ((nth 0 z 0 + nth 0 b 0 / a0 * x))%float in
  (y, map (fun i => (nth (S i) z 0 + nth (S i) b 0 / a0 * x - nth (S i) a 0 / a0 * y)%float)
          (seq 0 (length z))).

Fixpoint lfilter_run (b a : list float) (a0 : float) (z : list float) (x : list float)
  : list float :=
  match x with
  | [] => []
  | v :: x' =>
      let '(y, z') := lfilter_step b a a0 z v in
      y :: lfilter_run b a a0 z' x'
  end.

Definition lfilter (b a x : list float) : result (list float) :=
  match a with
  | [] => Raise ValueError
  | a0 :: _ =>
      Ok (lfilter_run b a a0 (repeat 0%float (Nat.max (length a) (length b) - 1)) x)
  end.

(** The filter that passes its input through: [b = [1]], [a = [1]]. *)
Definition unit_gain_design (order : Z) (low high : float)
  : result (list float * list float) :=
  Ok ([1%float], [1%float]).

(** The same design behind the library's check of the critical
    frequencies. *)
Definition checked_design (order : Z) (low high : float)
  : result (list float * list float) :=
  if butter_band_rejected low high then Raise ValueError
  else unit_gain_design order low high.

(** [sum_terms n j term acc next] adds [n] terms of a series, each
    obtained from the one before by [next]. *)
Fixpoint sum_terms (n : nat) (j : Z) (term acc : float) (next : Z -> float -> float)
  : float :=
  match n with
  | O => acc
  | S n' => sum_terms n' (j + 1) (next j term) (acc + term)%float next
  end.

Definition sin_series (x : float) : float :=
  sum_terms 30 0 x 0
    (fun j t => (- (t * (x * x)) / float_of_Z ((2 * j + 2) * (2 * j + 3)))%float).

Definition cos_series (x : float) : float :=
  sum_terms 30 0 1 0
    (fun j t => (- (t * (x * x)) / float_of_Z ((2 * j + 1) * (2 * j + 2)))%float).

(** [exp(-2 pi i r / n)] as (real, imaginary), exact at the quarter
    turns. *)
Definition twiddle (r n : Z) : float * float :=
  let r := r mod n in
  if r =? 0 then (1, 0)%float
  else if 2 * r =? n then (-1, 0)%float
  else if 4 * r =? n then (0, -1)%float
  else if 4 * r =? 3 * n then (0, 1)%float
  else
    let r' := if n <? 2 * r then r - n else r in
    let theta := (2 * np_pi * float_of_Z r' / float_of_Z n)%float in
    (cos_series theta, (- sin_series theta)%float).

(** Bin [k] of the discrete Fourier transform of a real series. *)
Fixpoint dft_bin (x : list float) (k j n : Z) (re im : float) : float * float :=
  match x with
  | [] => (re, im)
  | v :: x' =>
      let '(c, s) := twiddle (k * j) n in
      dft_bin x' k (j + 1) n (re + v * c)%float (im + v * s)%float
  end.

(** The one-sided transform: bins [0 .. n // 2]. *)
Definition rfft (x : list float) : result (list (float * float)) :=
  match x with
  | [] => Raise ValueError
  | _ =>
      Ok (map (fun k => dft_bin x (Z.of_nat k) 0 (len x) 0 0)
              (seq 0 (Z.to_nat (len x / 2 + 1))))
  end.

(** The modulus of a complex number. *)
Definition cabs (c : float * float) : float :=
  PrimFloat.sqrt (fst c * fst c + snd c * snd c)%float.

Definition arcsin_small (x : float) : float :=
  sum_terms 40 0 x 0
    (fun j t => (t * (x * x) * float_of_Z ((2 * j + 1) * (2 * j + 1))
                 / float_of_Z ((2 * j + 2) * (2 * j + 3)))%float).

(** The power series on [|x| <= 1/2], and
    [asin x = pi/2 - 2 asin (sqrt ((1 - x) / 2))] beyond; NaN outside
    [-1, 1]. *)
Definition arcsin (x : float) : float :=
  if (abs x <=? 0.5)%float then arcsin_small x
  else if (abs x <=? 1)%float then
    let r := (np_pi / 2 - 2 * arcsin_small (PrimFloat.sqrt ((1 - abs x) / 2)))%float in
    if (x <? 0)%float then (- r)%float else r
  else nan.

Definition arccos (x : float) : float := (np_pi / 2 - arcsin x)%float.

(** The same two functions, returning 0 instead of NaN outside
    [-1, 1]. *)
Definition arcsin_zero_outside (x : float) : float :=
  if in_domain x then arcsin x else 0%float.

Definition arccos_zero_outside (x : float) : float :=
  if in_domain x then arccos x else 0%float.

(** A series that already has one sample in each bucket is its own
    bucket average. *)
Definition one_sample_per_bucket {A : Type} (s : list A) : list A := s.

End Sample.

(* ===================================================================== *)
(** ** Data                                                               *)
(* ===================================================================== *)

(** [class Pos(enum.Enum)]. *)
Inductive Pos : Type :=
| SUPINE
| PRONE
| TILT
| UPRIGHT
| LEFT_SIDE
| RIGHT_SIDE.

Definition Pos_value (p : Pos) : Z :=
  match p with
  | SUPINE => 0
  | PRONE => 1
  | TILT => 2
  | UPRIGHT => 3
  | LEFT_SIDE => 4
  | RIGHT_SIDE => 5
  end.

Definition Pos_name (p : Pos) : string :=
  match p with
  | SUPINE => "SUPINE"
  | PRONE => "PRONE"
  | TILT => "TILT"
  | UPRIGHT => "UPRIGHT"
  | LEFT_SIDE => "LEFT_SIDE"
  | RIGHT_SIDE => "RIGHT_SIDE"
  end.

(** A one-column data frame: rows of (timestamp, value), the timestamp an
    integer count of clock ticks. *)
Definition series : Type := list (Z * float).

(** A row of the accelerometer frame built by [get_data]. *)
Record acc_row : Type := mk_acc_row {
  time : Z;
  Accelerometer_X : float;
  Accelerometer_Y : float;
  Accelerometer_Z : float;
  mag : float;
  total : float
}.

(** A complex number as (real, imaginary). *)
Definition complex : Type := (float * float)%type.

(** The four lists [body_pos_and_angles] fills, with the [time] list it
    keeps besides. *)
Record angles : Type := mk_angles {
  out_time : list Z;
  out_pos : list Z;
  out_pos_name : list string;
  out_thetas : list float;
  out_phis : list float
}.

(** An accelerometer frame of [n] rows one second apart: a body lying
    still but for a sway in the summed reading that alternates from row to
    row. *)
Definition swaying_rows (n : nat) : list acc_row :=
  map (fun k => mk_acc_row (Z.of_nat k * 1000) 0.1 0.2 0.9 1
                  (if Nat.even k then 1.2 else 1.4)%float)
      (seq 0 n).

(* ===================================================================== *)
(** ** The program                                                        *)
(* ===================================================================== *)

Section Repose.

(** [scipy.signal.butter(order, [low, high], btype='band')], returning
    [(b, a)]. *)
Variable signal_butter : Z -> float -> float -> result (list float * list float).
(** [scipy.signal.lfilter(b, a, data)]. *)
Variable signal_lfilter : list float -> list float -> list float -> result (list float).
(** [np.fft.rfft] and [np.absolute] on a complex number. *)
Variable np_fft_rfft : list float -> result (list complex).
Variable np_absolute : complex -> float.
(** [np.percentile(a, q)], [np.median(a)], [np.mean(a)]. *)
Variable np_percentile : list float -> float -> result float.
Variable np_median : list float -> result float.
Variable np_mean : list float -> float.
(** [np.arcsin], [np.arccos]. *)
Variable np_arcsin : float -> float.
Variable np_arccos : float -> float.
(** [ecg.resample('0.01S').mean()], [df.resample('S').pad()] and
    [acc.resample('S').mean()]. *)
Variable resample_10ms_mean : series -> series.
Variable resample_1s_pad : series -> series.
Variable resample_1s_mean : list acc_row -> list acc_row.

(** *** Bandpass filter *)

Definition butter_bandpass (lowcut highcut fs : float) (order : Z)
  : result (list float * list float) :=
  let nyq := (0.5 * fs)%float in
  low ← py_truediv lowcut nyq;
  high ← py_truediv highcut nyq;
  signal_butter order low high.

Definition butter_bandpass_filter (data : list float) (lowcut highcut fs : float)
    (order : Z) : result (list float) :=
  ba ← butter_bandpass lowcut highcut fs order;
  signal_lfilter (fst ba) (snd ba) data.

(** *** Spectrum *)

Definition spectrum (sig : list float) (sample_rate : Z)
  : result (list float * list float * float * float) :=
  mag ← np_fft_rfft sig;
  d ← py_truediv 1 (float_of_Z sample_rate);
  freq ← np_rfftfreq (len sig) d;
  k ← np_argmax (map np_absolute mag);
  f1 ← py_index freq 1;
  let peakf := (float_of_Z k * f1)%float in
  peakv ← np_max (map np_absolute mag);
  Ok (map (fun m => (np_absolute m / 1000)%float) mag, freq, peakf,
      (peakv / 1000)%float).

(** *** Heart rate *)

(** Lines 111-112: the negated first difference; the array with a zero
    appended is built and dropped. *)
Definition differentiate (ecg_filt : list float) : list float :=
  let ecg_processed := np_negative (np_diff ecg_filt) in
  let _ := np_append ecg_processed 0 in
  ecg_processed.

(** Lines 118-121: the scan over consecutive pairs of one window. *)
Definition window_beats (ecg_sample : list float) (thresh : float) : list Z :=
  fold_left
    (fun beats j =>
       match ecg_sample !! j, ecg_sample !! S j with
       | Some v, Some w =>
           if (v <? thresh)%float && (thresh <? w)%float
           then beats ++ [Z.of_nat j] else beats
       | _, _ => beats
       end)
    (seq 0 (length ecg_sample - 1)) [].

(** Line 117. *)
Definition beat_threshold (ecg_sample : list float) : result float :=
  p ← np_percentile ecg_sample 99;
  Ok (p * 0.75)%float.

Definition detect_beats (ecg_sample : list float) : result (list Z) :=
  thresh ← beat_threshold ecg_sample;
  Ok (window_beats ecg_sample thresh).

(** Line 122; the division is numpy's and raises nothing. *)
Definition hr_mean (beats : list Z) (rate : Z) : float :=
  (60 / np_mean (map (fun d => (float_of_Z d / float_of_Z rate)%float)
                     (np_diff_int beats)))%float.

(** One pass of the loop of lines 115-125: the row added for the window
    that starts at [i]. *)
Definition hr_window (index : list Z) (ecg_processed : list float)
    (rate hr_win i : Z) : result (Z * float) :=
  let ecg_sample := py_slice ecg_processed i (i + hr_win) in
  beats ← detect_beats ecg_sample;
  t ← py_index index (i + hr_win);
  Ok (t, hr_mean beats rate).

(** Lines 113-125: the rows added, one per window, before the padding to
    one value per second. *)
Definition hr_windows (index : list Z) (ecg_processed : list float)
    (sample_rate : gmap string Z) (window_length calc_every : Z)
  : result (list (Z * float)) :=
  rate ← py_getitem sample_rate "ECG";
  let hr_win := window_length * rate in
  starts ← py_range 0 (len ecg_processed - hr_win) (rate * calc_every);
  for_each (hr_window index ecg_processed rate hr_win) starts.

(** [calculate_hr] returns the padded frame; the dictionary it was given
    comes back with the entry for ["ECG"] set to 100. *)
Definition calculate_hr (ecg : series) (sample_rate : gmap string Z)
    (window_length calc_every : Z) : result (series * gmap string Z) :=
  let ecg := resample_10ms_mean ecg in
  let sample_rate := <["ECG" := 100]> sample_rate in
  let ecg_array := map snd ecg in
  let low := 3.0%float in
  let high := 33.3%float in
  rate ← py_getitem sample_rate "ECG";
  _ ← butter_bandpass low high (float_of_Z rate) 2;
  ecg_filt ← butter_bandpass_filter ecg_array low high (float_of_Z rate) 2;
  let ecg_processed := differentiate ecg_filt in
  rows ← hr_windows (map fst ecg) ecg_processed sample_rate window_length calc_every;
  Ok (fold_left (fun hr new_row => resample_1s_pad (hr ++ [new_row])) rows [],
      sample_rate).

(** *** Respiratory rate *)

(** One pass of the loop of lines 135-140. *)
Definition rr_window (index : list Z) (acc_tot : list float)
    (rate_acc rr_win i : Z) : result (Z * float) :=
  let window := py_slice acc_tot i (i + rr_win) in
  med ← np_median window;
  let windowed_acc := map (fun v => (v - med)%float) window in
  s ← spectrum windowed_acc rate_acc;
  let rf := snd (fst s) in
  t ← py_index index (i + rr_win);
  Ok (t, (rf * 60)%float).

Definition rr_windows (index : list Z) (acc_tot : list float)
    (sample_rate : gmap string Z) (window_length calc_every : Z)
  : result (list (Z * float)) :=
  rate_acc ← py_getitem sample_rate "Accelerometer_X";
  let rr_win := window_length * rate_acc in
  rate_ecg ← py_getitem sample_rate "ECG";
  starts ← py_range 0 (len acc_tot - rr_win) (rate_ecg * calc_every);
  for_each (rr_window index acc_tot rate_acc rr_win) starts.

Definition calculate_rr (acc : list acc_row) (sample_rate : gmap string Z)
    (window_length calc_every : Z) : result series :=
  let acc_tot := map total acc in
  rows ← rr_windows (map time acc) acc_tot sample_rate window_length calc_every;
  Ok (fold_left (fun rr new_row => resample_1s_pad (rr ++ [new_row])) rows []).

(** *** Body position *)

(** Lines 155-178 on the clipped sample: the position, the tilt appended
    to [thetas] and the rotation appended to [phis]. *)
Definition classify (acc_x acc_y acc_z : float) : Pos * float * float :=
  let theta := (np_arcsin acc_x * 180 / np_pi)%float in
  let phi := (np_sign (np_arcsin (- acc_y)) * np_arccos (- acc_z) * 180 / np_pi)%float in
  let '(position, tilt) :=
    if (0.5 <? abs acc_y)%float then
      (if (acc_y <? 0)%float then LEFT_SIDE else RIGHT_SIDE, nan)
    else
      (if (acc_x <? acc_z)%float && (acc_y <? acc_z)%float then PRONE
       else if (acc_z <? -0.966)%float then SUPINE
       else if (0.966 <? acc_x)%float then UPRIGHT
       else TILT,
       theta) in
  let rotation := if (0.71 <? acc_x)%float then nan else phi in
  (position, tilt, rotation).

(** Lines 151-153. *)
Definition clip_sample (row : acc_row) : float * float * float :=
  (np_clip (Accelerometer_X row) (-1) 1,
   np_clip (Accelerometer_Y row) (-1) 1,
   np_clip (Accelerometer_Z row) (-1) 1).

Definition classify_row (row : acc_row) : Pos * float * float :=
  let '(acc_x, acc_y, acc_z) := clip_sample row in
  classify acc_x acc_y acc_z.

(** One pass of the loop of lines 150-181. *)
Definition body_pos_step (out : angles) (row : acc_row) : angles :=
  let '(position, tilt, rotation) := classify_row row in
  {| out_time := out_time out ++ [time row];
     out_pos := out_pos out ++ [Pos_value position];
     out_pos_name := out_pos_name out ++ [Pos_name position];
     out_thetas := out_thetas out ++ [tilt];
     out_phis := out_phis out ++ [rotation] |}.

Definition body_pos_and_angles (acc : list acc_row) : angles :=
  fold_left body_pos_step acc (mk_angles [] [] [] [] []).

(** *** The estimates of one recording (lines 197-205 of [main]) *)

Definition process_recording (ecg : series) (acc : list acc_row)
    (sample_rate : gmap string Z) : result (series * series * angles) :=
  hr ← calculate_hr ecg sample_rate 15 5;
  rr ← calculate_rr acc (snd hr) 25 5;
  let acc := resample_1s_mean acc in
  Ok (rr, fst hr, body_pos_and_angles acc).

(** *** Signal headers ([get_data], lines 51-52) *)

(** The two entries of a signal header that the program reads. *)
Record signal_header : Type := mk_signal_header {
  hdr_label : string;
  hdr_sample_rate : Z
}.

(** [{header['label']: header['sample_rate'] for header in signal_headers}]:
    the entries are written in order, a later one replacing an earlier one
    with the same label. *)
Definition header_sample_rates (signal_headers : list signal_header) : gmap string Z :=
  fold_left (fun d header => <[hdr_label header := hdr_sample_rate header]> d)
            signal_headers ∅.

(** *** File names ([main], lines 188-190 and 215) *)

Fixpoint char_in (c : Ascii.ascii) (chars : string) : bool :=
  match chars with
  | EmptyString => false
  | String c' chars' => Ascii.eqb c c' || char_in c chars'
  end.

Fixpoint py_startswith (p s : string) : bool :=
  match p, s with
  | EmptyString, _ => true
  | String a p', String b s' => Ascii.eqb a b && py_startswith p' s'
  | String _ _, EmptyString => false
  end.

(** [p in s] on strings. *)
Fixpoint py_contains (p s : string) : bool :=
  py_startswith p s
  || match s with
     | EmptyString => false
     | String _ s' => py_contains p s'
     end.

(** [s.lstrip(chars)], [s.rstrip(chars)], [s.strip(chars)]: the leading
    and trailing characters that belong to [chars] are removed. *)
Fixpoint py_lstrip (chars s : string) : string :=
  match s with
  | EmptyString => EmptyString
  | String c s' => if char_in c chars then py_lstrip chars s' else s
  end.

Fixpoint py_rstrip (chars s : string) : string :=
  match s with
  | EmptyString => EmptyString
  | String c s' =>
      match py_rstrip chars s' with
      | EmptyString => if char_in c chars then EmptyString else String c EmptyString
      | r => String c r
      end
  end.

Definition py_strip (chars s : string) : string := py_rstrip chars (py_lstrip chars s).

(** Line 189: a file is processed unless neither marker occurs in its
    name. *)
Definition is_edf_file (filename : string) : bool :=
  negb (negb (py_contains ".EDF" filename) && negb (py_contains ".edf" filename)).

(** Line 215. *)
Definition excel_filename (filename : string) : string :=
  py_strip ".EDF" filename +:+ ".xlsx".

(** Whether a string begins, or ends, with one of the characters of
    [chars]. *)
Definition begins_with_any (chars s : string) : bool :=
  match s with
  | EmptyString => false
  | String c _ => char_in c chars
  end.

Fixpoint ends_with_any (chars s : string) : bool :=
  match s with
  | EmptyString => false
  | String c EmptyString => char_in c chars
  | String _ s' => ends_with_any chars s'
  end.

Fixpoint all_in (chars s : string) : bool :=
  match s with
  | EmptyString => true
  | String c s' => char_in c chars && all_in chars s'
  end.

(** *** The specification's wording, for comparison *)

(** Section 4.2, step 4: an upward crossing counted when
    [value[j] < threshold <= value[j+1]]. *)
Definition spec_upward_crossing (ecg_sample : list float) (thresh : float) (j : nat)
  : bool :=
  match ecg_sample !! j, ecg_sample !! S j with
  | Some v, Some w => (v <? thresh)%float && (thresh <=? w)%float
  | _, _ => false
  end.

(** Section 4.2, step 6: the last sample of the window that starts at
    [i] and holds [hr_win] samples. *)
Definition spec_window_last (i hr_win : Z) : Z := i + hr_win - 1.

(** Section 4.4: a reading clipped to [-1, 1]: -1 below the interval, 1
    above it, the reading itself otherwise. *)
Definition spec_clip_to_unit (v : float) : float :=
  if (v <? -1)%float then (-1)%float else if (1 <? v)%float then 1%float else v.

(** Section 4.3: the dominant bin with the DC bin left out of the
    search. *)
Definition spec_peak_bin_excluding_dc (amplitude : list float) : result Z :=
  k ← np_argmax (tail amplitude);
  Ok (k + 1).

(** The crossing test of the program: both comparisons strict. *)
Definition upward_crossing (ecg_sample : list float) (thresh : float) (j : nat) : bool :=
  match ecg_sample !! j, ecg_sample !! S j with
  | Some v, Some w => (v <? thresh)%float && (thresh <? w)%float
  | _, _ => false
  end.

(** The rank of a non-NaN value: its class and sign, then its exponent
    and its mantissa, both negated below zero. *)
Definition sf_rank (x : spec_float) : Z * Z * Z :=
  match x with
  | S754_infinity true => (-2, 0, 0)
  | S754_finite true m e => (-1, - e, Z.neg m)
  | S754_zero _ => (0, 0, 0)
  | S754_nan => (0, 0, 0)
  | S754_finite false m e => (1, e, Z.pos m)
  | S754_infinity false => (2, 0, 0)
  end.

Definition rank_lt (a b : Z * Z * Z) : Prop :=
  a.1.1 < b.1.1
  \/ (a.1.1 = b.1.1 /\ (a.1.2 < b.1.2 \/ (a.1.2 = b.1.2 /\ a.2 < b.2))).

Definition rank_le (a b : Z * Z * Z) : Prop := rank_lt a b \/ a = b.

Definition frank (x : float) : Z * Z * Z := sf_rank (Prim2SF x).

(** The three results of [classify]. *)
Definition position_of (r : Pos * float * float) : Pos := r.1.1.
Definition tilt_of (r : Pos * float * float) : float := r.1.2.
Definition rotation_of (r : Pos * float * float) : float := r.2.

(* =================================================================== *)
(** ** Properties                                                       *)
(* =================================================================== *)

(** *** The result monad and the Python run time *)

Lemma bind_Ok {A B : Type} (m : result A) (f : A -> result B) (b : B) :
  (x ← m; f x) = Ok b -> exists a, m = Ok a /\ f a = Ok b.
Proof. destruct m as [a|e]; simpl; [eauto | discriminate]. Qed.

Lemma for_each_length {A B : Type} (body : A -> result B) (l : list A) (ys : list B) :
  for_each body l = Ok ys -> length ys = length l.
Proof.
  revert ys; induction l as [|x l IH]; simpl; intros ys H.
  - now inversion H.
  - apply bind_Ok in H as (y & _ & H).
    apply bind_Ok in H as (ys' & Hys & H).
    inversion H; subst; simpl. f_equal. now apply IH.
Qed.

Lemma for_each_lookup {A B : Type} (body : A -> result B) (l : list A) (ys : list B) :
  for_each body l = Ok ys ->
  forall k y, ys !! k = Some y -> exists x, l !! k = Some x /\ body x = Ok y.
Proof.
  revert ys; induction l as [|x l IH]; simpl; intros ys H k y Hk.
  - inversion H; subst. discriminate.
  - apply bind_Ok in H as (y0 & Hy0 & H).
    apply bind_Ok in H as (ys' & Hys & H).
    inversion H; subst. destruct k as [|k]; simpl in *.
    + inversion Hk; subst. eauto.
    + eapply IH; eauto.
Qed.

Lemma py_range_lookup (start stop step : Z) (l : list Z) (k : nat) (i : Z) :
  py_range start stop step = Ok l -> l !! k = Some i -> i = start + Z.of_nat k * step.
Proof.
  unfold py_range. destruct (step =? 0); [discriminate|].
  intros H Hk. inversion H; subst; clear H.
  rewrite list_lookup_fmap in Hk.
  destruct (seq 0 _ !! k) as [j|] eqn:Hj; [|discriminate].
  apply lookup_seq in Hj as [-> _]. simpl in Hk. now inversion Hk.
Qed.

(** For a positive step, [range] holds exactly the values
    [start + k * step] below [stop]. *)
Lemma py_range_positive_step (start stop step : Z) (l : list Z) (i : Z) :
  0 < step -> py_range start stop step = Ok l ->
  (In i l <-> exists k, 0 <= k /\ i = start + k * step /\ i < stop).
Proof.
  intros Hs. unfold py_range, range_length.
  destruct (Z.eqb_spec step 0) as [|_]; [lia|].
  destruct (Z.ltb_spec 0 step) as [_|]; [|lia].
  intros H; inversion H; subst; clear H.
  rewrite in_map_iff. split.
  - intros (k & <- & Hk%in_seq). exists (Z.of_nat k). split; [lia|]. split; [easy|].
    assert (Z.of_nat k < (stop - start + step - 1) / step) by lia.
    assert (step * ((stop - start + step - 1) / step) <= stop - start + step - 1)
      by (apply Z.mul_div_le; lia).
    nia.
  - intros (k & Hk & -> & Hlt). exists (Z.to_nat k). split; [lia|].
    apply in_seq. split; [lia|]. simpl.
    assert (k + 1 <= (stop - start + step - 1) / step)
      by (apply Z.div_le_lower_bound; nia).
    lia.
Qed.

(** *** Differentiation (lines 111-112) *)

Lemma np_diff_length (a : list float) : length (np_diff a) = Nat.pred (length a).
Proof.
  induction a as [|x a IH]; [reflexivity|].
  destruct a as [|y a]; [reflexivity|].
  change (S (length (np_diff (y :: a))) = Nat.pred (length (x :: y :: a))).
  now rewrite IH.
Qed.

Lemma np_diff_lookup (a : list float) (i : nat) (x y : float) :
  a !! i = Some x -> a !! S i = Some y -> np_diff a !! i = Some (y - x)%float.
Proof.
  revert i; induction a as [|x0 a IH]; intros i Hx Hy; [done|].
  destruct a as [|y0 a]; [destruct i; done|].
  destruct i as [|i].
  - cbn in Hx, Hy. now simplify_eq.
  - change (np_diff (y0 :: a) !! i = Some (y - x)%float). now apply IH.
Qed.

(** C6: every element of the processed array is the negated difference
    of two neighbours of the filtered array, [processed[i] =
    -(filtered[i+1] - filtered[i])], for every index [i] but the last; the
    processed array is one element shorter than a non-empty filtered
    array; and it is the negated difference itself, the array with the
    appended zero being dropped. *)
Theorem differentiate_negated_difference (ecg_filt : list float) :
  (forall i x y, ecg_filt !! i = Some x -> ecg_filt !! S i = Some y ->
                 differentiate ecg_filt !! i = Some (- (y - x))%float)
  /\ length (differentiate ecg_filt) = Nat.pred (length ecg_filt)
  /\ (ecg_filt <> [] -> S (length (differentiate ecg_filt)) = length ecg_filt)
  /\ differentiate ecg_filt = np_negative (np_diff ecg_filt).
Proof.
  unfold differentiate, np_negative; cbv zeta. repeat split.
  - intros i x y Hx Hy. rewrite list_lookup_fmap.
    now rewrite (np_diff_lookup _ _ _ _ Hx Hy).
  - now rewrite length_map, np_diff_length.
  - intros Hne. rewrite length_map, np_diff_length.
    destruct ecg_filt; [contradiction | reflexivity].
Qed.

(** *** Beat detection (lines 117-121) *)

Lemma window_scan_collect (ecg_sample : list float) (thresh : float) (l : list nat)
    (init : list Z) :
  fold_left
    (fun beats j =>
       match ecg_sample !! j, ecg_sample !! S j with
       | Some v, Some w =>
           if (v <? thresh)%float && (thresh <? w)%float
           then beats ++ [Z.of_nat j] else beats
       | _, _ => beats
       end) l init
  = init ++ map Z.of_nat (List.filter (upward_crossing ecg_sample thresh) l).
Proof.
  revert init; induction l as [|j l IH]; intros init; simpl.
  - now rewrite app_nil_r.
  - rewrite IH. unfold upward_crossing at 2.
    destruct (ecg_sample !! j) as [v|]; [|reflexivity].
    destruct (ecg_sample !! S j) as [w|]; [|reflexivity].
    destruct ((v <? thresh)%float && (thresh <? w)%float); simpl; [|reflexivity].
    now rewrite <- app_assoc.
Qed.

Lemma window_beats_filter (ecg_sample : list float) (thresh : float) :
  window_beats ecg_sample thresh
  = map Z.of_nat (List.filter (upward_crossing ecg_sample thresh)
                              (seq 0 (length ecg_sample - 1))).
Proof. unfold window_beats. now rewrite window_scan_collect. Qed.

Lemma window_beats_In (ecg_sample : list float) (thresh : float) (j : Z) :
  In j (window_beats ecg_sample thresh)
  <-> 0 <= j /\ upward_crossing ecg_sample thresh (Z.to_nat j) = true.
Proof.
  rewrite window_beats_filter, in_map_iff. split.
  - intros (k & <- & Hk). apply filter_In in Hk as [_ Hk].
    rewrite Nat2Z.id. split; [lia | exact Hk].
  - intros [Hj Hc]. exists (Z.to_nat j). split; [lia|].
    apply filter_In. split; [|exact Hc].
    apply in_seq. unfold upward_crossing in Hc.
    destruct (ecg_sample !! Z.to_nat j) as [v|] eqn:Hv; [|discriminate].
    destruct (ecg_sample !! S (Z.to_nat j)) as [w|] eqn:Hw; [|discriminate].
    apply lookup_lt_Some in Hw. lia.
Qed.

(** C1 (as the code has it): the beats recorded for a window are exactly
    the indices [j] at which the signal crosses the threshold upward with
    both comparisons strict, [value[j] < threshold < value[j+1]], the
    threshold being 0.75 times the 99th percentile of the window. *)
Theorem beats_are_strict_upward_crossings (ecg_sample : list float) (p : float) :
  np_percentile ecg_sample 99 = Ok p ->
  exists beats : list Z,
    detect_beats ecg_sample = Ok beats
    /\ forall j : Z,
        In j beats
        <-> 0 <= j
            /\ exists v w : float,
                ecg_sample !! Z.to_nat j = Some v
                /\ ecg_sample !! S (Z.to_nat j) = Some w
                /\ (v <? p * 0.75)%float = true
                /\ (p * 0.75 <? w)%float = true.
Proof.
  intros Hp. exists (window_beats ecg_sample (p * 0.75)%float). split.
  - unfold detect_beats, beat_threshold. now rewrite Hp.
  - intros j. rewrite window_beats_In. unfold upward_crossing.
    split; intros [Hj Hc]; (split; [exact Hj|]).
    + destruct (ecg_sample !! Z.to_nat j) as [v|]; [|discriminate].
      destruct (ecg_sample !! S (Z.to_nat j)) as [w|]; [|discriminate].
      apply andb_true_iff in Hc as [Hv Hw]. now exists v, w.
    + destruct Hc as (v & w & -> & -> & Hv & Hw). now rewrite Hv, Hw.
Qed.

(** *** Window rows (lines 113-125) *)

Lemma hr_window_inv (index : list Z) (ecg_processed : list float)
    (rate hr_win i : Z) (row : Z * float) :
  hr_window index ecg_processed rate hr_win i = Ok row ->
  exists beats,
    detect_beats (py_slice ecg_processed i (i + hr_win)) = Ok beats
    /\ py_index index (i + hr_win) = Ok (fst row)
    /\ snd row = hr_mean beats rate.
Proof.
  unfold hr_window; cbv zeta. intros H.
  apply bind_Ok in H as (beats & Hb & H).
  apply bind_Ok in H as (t & Ht & H).
  inversion H; subst; simpl. eauto.
Qed.

Lemma py_getitem_insert (d : gmap string Z) (key : string) (v : Z) :
  py_getitem (<[key := v]> d) key = Ok v.
Proof. unfold py_getitem. now rewrite lookup_insert_eq. Qed.

(** C2 (as the code has it): with the ECG rate recorded as 100, as
    [calculate_hr] records it, the row added for window number [k] starts
    at processed index [i = k * (100 * calc_every)], is computed from the
    processed samples [i .. i + window_length * 100 - 1], and carries the
    timestamp found at index [i + window_length * 100] of the resampled
    ECG: one place after the window's last index. *)
Theorem hr_row_timestamp_is_one_past_window (index : list Z)
    (ecg_processed : list float) (sample_rate : gmap string Z)
    (window_length calc_every : Z) (rows : list (Z * float)) :
  hr_windows index ecg_processed (<["ECG" := 100]> sample_rate)
             window_length calc_every = Ok rows ->
  forall (k : nat) (t : Z) (v : float),
    rows !! k = Some (t, v) ->
    let i := Z.of_nat k * (100 * calc_every) in
    py_index index (i + window_length * 100) = Ok t
    /\ exists beats,
        detect_beats (py_slice ecg_processed i (i + window_length * 100)) = Ok beats
        /\ v = hr_mean beats 100.
Proof.
  intros H k t v Hk i. unfold hr_windows in H.
  rewrite py_getitem_insert in H. cbn [mbind result_bind] in H.
  apply bind_Ok in H as (starts & Hs & H).
  destruct (for_each_lookup _ _ _ H k _ Hk) as (i0 & Hi0 & Hrow).
  apply (py_range_lookup _ _ _ _ _ _ Hs) in Hi0.
  assert (i0 = i) as -> by (subst i; lia).
  apply hr_window_inv in Hrow as (beats & Hb & Ht & Hv). simpl in *.
  split; [exact Ht|]. now exists beats.
Qed.

(** *** Heart rate of one window (line 122) *)

Lemma np_diff_int_few (beats : list Z) :
  (length beats < 2)%nat -> np_diff_int beats = [].
Proof. destruct beats as [|x [|y l]]; simpl; intros; (reflexivity || lia). Qed.

Lemma np_diff_int_nth (beats : list Z) :
  np_diff_int beats
  = map (fun k => nth (S k) beats 0 - nth k beats 0) (seq 0 (length beats - 1)).
Proof.
  induction beats as [|x l IH]; [reflexivity|].
  destruct l as [|y l]; [reflexivity|].
  change (np_diff_int (x :: y :: l)) with ((y - x) :: np_diff_int (y :: l)).
  rewrite IH.
  replace (length (x :: y :: l) - 1)%nat with (S (length (y :: l) - 1))
    by (simpl; lia).
  rewrite <- cons_seq, <- seq_shift. cbn [map]. now rewrite map_map.
Qed.

(** C4: when the beat detection of a window and the look-up of its
    timestamp succeed, the row is produced, no exception coming from the
    heart-rate arithmetic; with fewer than two beats its value is NaN
    (the mean of no interval being NaN), and with two beats or more it is
    60 divided by the mean of the intervals between consecutive beats,
    each divided by the sample rate, that is, in seconds. *)
Theorem hr_window_value (index : list Z) (ecg_processed : list float)
    (rate hr_win i : Z) (beats : list Z) (t : Z) :
  np_mean [] = nan ->
  detect_beats (py_slice ecg_processed i (i + hr_win)) = Ok beats ->
  py_index index (i + hr_win) = Ok t ->
  hr_window index ecg_processed rate hr_win i = Ok (t, hr_mean beats rate)
  /\ ((length beats < 2)%nat -> hr_mean beats rate = nan)
  /\ ((2 <= length beats)%nat ->
      hr_mean beats rate
      = (60 / np_mean
                (map (fun k => (float_of_Z (nth (S k) beats 0 - nth k beats 0)%Z
                                / float_of_Z rate)%float)
                     (seq 0 (length beats - 1))))%float).
Proof.
  intros Hmean Hb Ht. repeat split.
  - unfold hr_window; cbv zeta. now rewrite Hb; cbn; rewrite Ht.
  - intros Hfew. unfold hr_mean. rewrite (np_diff_int_few _ Hfew). cbn [map].
    now rewrite Hmean.
  - intros _. unfold hr_mean. now rewrite np_diff_int_nth, map_map.
Qed.

(** *** Respiratory rate windows (lines 133-140) *)

Lemma py_getitem_Ok (d : gmap string Z) (key : string) (v : Z) :
  py_getitem d key = Ok v -> d !! key = Some v.
Proof. unfold py_getitem. destruct (d !! key); intros H; now inversion H. Qed.

Lemma rr_windows_inv (index : list Z) (acc_tot : list float)
    (sample_rate : gmap string Z) (window_length calc_every : Z)
    (rows : list (Z * float)) :
  rr_windows index acc_tot sample_rate window_length calc_every = Ok rows ->
  exists (rate_ecg rate_acc : Z) (starts : list Z),
    sample_rate !! "ECG" = Some rate_ecg
    /\ sample_rate !! "Accelerometer_X" = Some rate_acc
    /\ py_range 0 (len acc_tot - window_length * rate_acc) (rate_ecg * calc_every)
       = Ok starts
    /\ for_each (rr_window index acc_tot rate_acc (window_length * rate_acc)) starts
       = Ok rows.
Proof.
  unfold rr_windows. intros H.
  apply bind_Ok in H as (rate_acc & Hacc & H).
  apply bind_Ok in H as (rate_ecg & Hecg & H).
  apply bind_Ok in H as (starts & Hs & H).
  exists rate_ecg, rate_acc, starts. auto using py_getitem_Ok.
Qed.

(** C5: the row added for window number [k] of the respiratory rate
    comes from the window that starts at [k * (calc_every * ECG rate)]
    and holds [window_length * accelerometer rate] samples, both rates
    read from the sample-rate dictionary: the stride counts ECG-rate
    samples, the length accelerometer-rate samples. *)
Theorem rr_stride_counts_ecg_samples (index : list Z) (acc_tot : list float)
    (sample_rate : gmap string Z) (window_length calc_every : Z)
    (rows : list (Z * float)) :
  rr_windows index acc_tot sample_rate window_length calc_every = Ok rows ->
  exists (rate_ecg rate_acc : Z) (starts : list Z),
    sample_rate !! "ECG" = Some rate_ecg
    /\ sample_rate !! "Accelerometer_X" = Some rate_acc
    /\ py_range 0 (len acc_tot - window_length * rate_acc) (rate_ecg * calc_every)
       = Ok starts
    /\ length rows = length starts
    /\ (forall (k : nat) (i : Z),
           starts !! k = Some i -> i = Z.of_nat k * (calc_every * rate_ecg))
    /\ forall (k : nat) (row : Z * float),
        rows !! k = Some row ->
        let i := Z.of_nat k * (calc_every * rate_ecg) in
        let window := py_slice acc_tot i (i + window_length * rate_acc) in
        exists (med : float) (s : list float * list float * float * float),
          np_median window = Ok med
          /\ spectrum (map (fun v => (v - med)%float) window) rate_acc = Ok s
          /\ py_index index (i + window_length * rate_acc) = Ok (fst row)
          /\ snd row = (snd (fst s) * 60)%float.
Proof.
  intros H.
  apply rr_windows_inv in H as (rate_ecg & rate_acc & starts & He & Ha & Hs & H).
  exists rate_ecg, rate_acc, starts.
  do 3 (split; [assumption|]). split; [now apply for_each_length in H|].
  split.
  - intros k i Hk. rewrite (py_range_lookup _ _ _ _ _ _ Hs Hk). lia.
  - intros k row Hk i window.
    destruct (for_each_lookup _ _ _ H k _ Hk) as (i0 & Hi0 & Hrow).
    apply (py_range_lookup _ _ _ _ _ _ Hs) in Hi0.
    assert (i0 = i) as -> by (subst i; lia).
    unfold rr_window in Hrow; cbv zeta in Hrow. fold window in Hrow.
    apply bind_Ok in Hrow as (med & Hmed & Hrow).
    apply bind_Ok in Hrow as (s & Hspec & Hrow).
    apply bind_Ok in Hrow as (t & Ht & Hrow).
    inversion Hrow; subst row; simpl. now exists med, s.
Qed.

(** [calculate_hr] hands back the dictionary with the ECG rate set to
    100, whatever the recording's header said. *)
Lemma calculate_hr_records_rate (ecg : series) (sample_rate : gmap string Z)
    (window_length calc_every : Z) (out : series * gmap string Z) :
  calculate_hr ecg sample_rate window_length calc_every = Ok out ->
  snd out = <["ECG" := 100]> sample_rate.
Proof.
  unfold calculate_hr; cbv zeta. intros H.
  apply bind_Ok in H as (rate & _ & H).
  apply bind_Ok in H as (ba & _ & H).
  apply bind_Ok in H as (ecg_filt & _ & H).
  apply bind_Ok in H as (rows & _ & H).
  now inversion H.
Qed.

(** X13: In [main] the respiratory rate is computed after the heart rate, on
    the dictionary the heart rate estimator has written to.  With
    [rate_acc] the rate the header gives for ["Accelerometer_X"], the
    windows hold [25 * rate_acc] accelerometer samples and start at the
    samples 0, 500, 1000, ...: 500 apart (5 seconds at the 100 Hz recorded
    for the ECG) whatever [rate_acc] is.  There is one row per start, the
    row of that window, and the rows make the respiratory rate series. *)
Theorem process_recording_rr_stride (ecg : series) (acc : list acc_row)
    (sample_rate : gmap string Z) (out : series * series * angles) :
  process_recording ecg acc sample_rate = Ok out ->
  exists (rate_acc : Z) (starts : list Z) (rows : list (Z * float)),
    sample_rate !! "Accelerometer_X" = Some rate_acc
    /\ py_range 0 (len (map total acc) - 25 * rate_acc) 500 = Ok starts
    /\ (forall k i, starts !! k = Some i -> i = Z.of_nat k * 500)
    /\ length rows = length starts
    /\ (forall k row,
          rows !! k = Some row ->
          rr_window (map time acc) (map total acc) rate_acc (25 * rate_acc)
            (Z.of_nat k * 500) = Ok row)
    /\ out.1.1 = fold_left (fun rr new_row => resample_1s_pad (rr ++ [new_row])) rows [].
Proof.
  unfold process_recording. intros H.
  apply bind_Ok in H as (hr & Hhr & H).
  apply bind_Ok in H as (rr & Hrr & H).
  rewrite (calculate_hr_records_rate _ _ _ _ _ Hhr) in Hrr.
  unfold calculate_rr in Hrr; cbv zeta in Hrr.
  apply bind_Ok in Hrr as (rows & Hrows & Hrr).
  destruct (rr_windows_inv _ _ _ _ _ _ Hrows)
    as (rate_ecg & rate_acc & starts & He & Ha & Hs & Hl).
  rewrite lookup_insert_eq in He. inversion He; subst rate_ecg.
  rewrite lookup_insert_ne in Ha by discriminate.
  change (100 * 5) with 500 in Hs.
  exists rate_acc, starts, rows.
  split; [exact Ha|]. split; [exact Hs|]. split.
  { intros k i Hk. rewrite (py_range_lookup _ _ _ _ _ _ Hs Hk). lia. }
  split; [now apply for_each_length in Hl|]. split.
  - intros k row Hk.
    destruct (for_each_lookup _ _ _ Hl k _ Hk) as (i & Hi & Hrow).
    apply (py_range_lookup _ _ _ _ _ _ Hs) in Hi.
    assert (i = Z.of_nat k * 500) as <- by lia. exact Hrow.
  - inversion H; subst out. cbn [fst]. now inversion Hrr.
Qed.

(** *** Order and zeros of binary64 values *)

(** Non-NaN values are ordered as their ranks are, lexicographically:
    the class and sign first, then the exponent, then the mantissa. *)
Lemma SFltb_rank (x y : spec_float) :
  x <> S754_nan -> y <> S754_nan ->
  (SFltb x y = true <-> rank_lt (sf_rank x) (sf_rank y)).
Proof.
  intros Hx Hy. unfold SFltb, rank_lt.
  destruct x as [sx|sx| |sx mx ex], y as [sy|sy| |sy my ey];
    try congruence; try destruct sx; try destruct sy; cbn;
    try (split; [discriminate | lia]); try (split; [lia | reflexivity]).
  all: change (Pos.compare_cont Eq mx my) with (Pos.compare mx my).
  all: destruct (Z.compare_spec ex ey); destruct (Pos.compare_spec mx my); cbn;
    try (split; [discriminate | lia]); try (split; [lia | reflexivity]).
Qed.

Lemma SFleb_rank (x y : spec_float) :
  x <> S754_nan -> y <> S754_nan ->
  (SFleb x y = true <-> rank_le (sf_rank x) (sf_rank y)).
Proof.
  intros Hx Hy. unfold SFleb, rank_le, rank_lt.
  destruct x as [sx|sx| |sx mx ex], y as [sy|sy| |sy my ey];
    try congruence; try destruct sx; try destruct sy; cbn;
    try (split; [discriminate | intros [?|?]; [lia | discriminate]]);
    try (split; [intros _; (left; lia) || (right; reflexivity) | reflexivity]).
  all: change (Pos.compare_cont Eq mx my) with (Pos.compare mx my).
  all: destruct (Z.compare_spec ex ey); destruct (Pos.compare_spec mx my); cbn;
    try (split; [discriminate | intros [?|?]; [lia | simplify_eq; lia]]);
    try (split; [intros _; (left; lia) || (right; congruence) | reflexivity]).
Qed.

Lemma SFcompare_refl (x : spec_float) :
  x <> S754_nan -> SFcompare x x = Some Eq.
Proof.
  destruct x as [s|s| |s m e]; try congruence; try (destruct s; reflexivity).
  intros _. cbn. rewrite Z.compare_refl.
  change (Pos.compare_cont Eq m m) with (Pos.compare m m).
  rewrite Pos.compare_refl. now destruct s.
Qed.

Lemma is_nan_false (x : float) : is_nan x = false <-> Prim2SF x <> S754_nan.
Proof.
  unfold is_nan. rewrite FloatAxioms.eqb_spec. unfold SFeqb. split.
  - intros H Hn. rewrite Hn in H. discriminate.
  - intros H. now rewrite (SFcompare_refl _ H).
Qed.

Lemma ltb_rank (x y : float) :
  is_nan x = false -> is_nan y = false ->
  ((x <? y)%float = true <-> rank_lt (frank x) (frank y)).
Proof.
  intros Hx%is_nan_false Hy%is_nan_false. rewrite ltb_spec. now apply SFltb_rank.
Qed.

Lemma leb_rank (x y : float) :
  is_nan x = false -> is_nan y = false ->
  ((x <=? y)%float = true <-> rank_le (frank x) (frank y)).
Proof.
  intros Hx%is_nan_false Hy%is_nan_false. rewrite leb_spec. now apply SFleb_rank.
Qed.

Ltac rank_lia :=
  unfold rank_le, rank_lt in *;
  repeat match goal with
         | r : (Z * Z * Z)%type |- _ => destruct r as [[? ?] ?]
         end;
  cbn [fst snd] in *;
  repeat match goal with
         | H : _ \/ (_, _, _) = (_, _, _) |- _ => destruct H as [H|H]; [|simplify_eq]
         end;
  first [lia | left; lia | right; f_equal; [f_equal|]; lia].

Lemma rank_not_le_lt (a b : Z * Z * Z) : ~ rank_le a b -> rank_lt b a.
Proof.
  intros H. destruct a as [[a1 a2] a3], b as [[b1 b2] b3].
  unfold rank_le, rank_lt in *; cbn [fst snd] in *.
  destruct (decide (a1 = b1)), (decide (a2 = b2)), (decide (a3 = b3));
    subst; try lia; exfalso; apply H; auto; lia.
Qed.

Lemma rank_le_lt_trans (a b c : Z * Z * Z) : rank_le a b -> rank_lt b c -> rank_lt a c.
Proof. intros [H | ->] H'; [|exact H']. rank_lia. Qed.

(** Among non-NaN values, [not (x <= y)] is [y < x]. *)
Lemma leb_false_ltb (x y : float) :
  is_nan x = false -> is_nan y = false ->
  (x <=? y)%float = false -> (y <? x)%float = true.
Proof.
  intros Hx Hy H. apply ltb_rank; [assumption..|]. apply rank_not_le_lt.
  intros Hle. apply (leb_rank _ _ Hx Hy) in Hle. congruence.
Qed.

Lemma leb_ltb_trans (x y z : float) :
  is_nan x = false -> is_nan y = false -> is_nan z = false ->
  (x <=? y)%float = true -> (y <? z)%float = true -> (x <? z)%float = true.
Proof.
  intros Hx Hy Hz H1%leb_rank H2%ltb_rank; try assumption.
  apply ltb_rank; [assumption..|]. eapply rank_le_lt_trans; eassumption.
Qed.

Lemma ltb_leb (x y : float) : (x <? y)%float = true -> (x <=? y)%float = true.
Proof.
  rewrite ltb_spec, leb_spec. unfold SFltb, SFleb.
  now destruct (SFcompare _ _) as [[]|].
Qed.

Lemma leb_refl (x : float) : is_nan x = false -> (x <=? x)%float = true.
Proof.
  intros H%is_nan_false. rewrite leb_spec. unfold SFleb.
  now rewrite (SFcompare_refl _ H).
Qed.

Lemma is_nan_opp (x : float) : is_nan (- x) = is_nan x.
Proof.
  destruct (is_nan x) eqn:H.
  - destruct (is_nan (- x)) eqn:H'; [reflexivity|].
    apply is_nan_false in H'. rewrite opp_spec in H'.
    assert (Prim2SF x = S754_nan) as Hn.
    { destruct (Prim2SF x) eqn:E; try reflexivity;
        exfalso; assert (is_nan x = false) by (apply is_nan_false; congruence);
        congruence. }
    now rewrite Hn in H'.
  - apply is_nan_false. apply is_nan_false in H. rewrite opp_spec.
    now destruct (Prim2SF x).
Qed.

Lemma frank_opp (x : float) :
  frank (- x) = (- (frank x).1.1, - (frank x).1.2, - (frank x).2).
Proof.
  unfold frank. rewrite opp_spec.
  destruct (Prim2SF x) as [[]|[]| |[] m e]; cbn [SFopp sf_rank negb fst snd];
    rewrite ?Z.opp_involutive; reflexivity.
Qed.

(** Negation reverses the order. *)
Lemma leb_opp (x y : float) :
  (x <=? y)%float = true -> (- y <=? - x)%float = true.
Proof.
  intros H.
  assert (is_nan x = false /\ is_nan y = false) as [Hx Hy].
  { rewrite leb_spec in H. unfold SFleb in H.
    split; apply is_nan_false; intros Hn; rewrite Hn in H;
      [|destruct (Prim2SF x)]; discriminate. }
  apply (leb_rank _ _ Hx Hy) in H.
  apply leb_rank; rewrite ?is_nan_opp; try assumption.
  rewrite !frank_opp. destruct (frank x) as [[a1 a2] a3], (frank y) as [[b1 b2] b3].
  unfold rank_le, rank_lt in *; cbn [fst snd] in *.
  destruct H as [H|H]; [left; lia | right; simplify_eq; reflexivity].
Qed.

Lemma rank_le_not_lt (a b : Z * Z * Z) : rank_le a b -> rank_lt b a -> False.
Proof. intros [H | ->] H'; rank_lia. Qed.

Lemma leb_not_ltb (x y : float) : (x <=? y)%float = true -> (y <? x)%float = false.
Proof.
  intros H.
  assert (is_nan x = false /\ is_nan y = false) as [Hx Hy].
  { rewrite leb_spec in H. unfold SFleb in H.
    split; apply is_nan_false; intros Hn; rewrite Hn in H;
      [|destruct (Prim2SF x)]; discriminate. }
  destruct (y <? x)%float eqn:E; [|reflexivity].
  apply (leb_rank _ _ Hx Hy) in H. apply (ltb_rank _ _ Hy Hx) in E.
  exfalso. eapply rank_le_not_lt; eassumption.
Qed.

Lemma eqb_zero (a : float) :
  (a =? 0)%float = true <-> exists s, Prim2SF a = S754_zero s.
Proof.
  rewrite FloatAxioms.eqb_spec. unfold SFeqb.
  change (Prim2SF 0) with (S754_zero false). split.
  - destruct (Prim2SF a) as [s|[]| |[] m e]; try discriminate. eauto.
  - intros [s ->]. reflexivity.
Qed.

Lemma eqb_zero_opp (a : float) : (a =? 0)%float = true -> (- a =? 0)%float = true.
Proof.
  rewrite !eqb_zero. intros [s Hs]. exists (negb s). now rewrite opp_spec, Hs.
Qed.

(** The only zeros are [0] and [-0]. *)
Lemma eqb_zero_cases (a : float) :
  (a =? 0)%float = true -> a = 0%float \/ a = (-0)%float.
Proof.
  intros [s Hs]%eqb_zero. rewrite <- (SF2Prim_Prim2SF a), Hs.
  destruct s; [right | left]; reflexivity.
Qed.

Lemma np_sign_zero (a : float) : (a =? 0)%float = true -> np_sign a = 0%float.
Proof. intros [-> | ->]%eqb_zero_cases; reflexivity. Qed.

Lemma is_finite_Prim2SF (w : float) :
  is_finite w = true ->
  (exists s, Prim2SF w = S754_zero s) \/ (exists s m e, Prim2SF w = S754_finite s m e).
Proof.
  unfold is_finite, is_infinity. intros H.
  apply negb_true_iff, orb_false_iff in H as [Hn Hi].
  apply is_nan_false in Hn.
  rewrite FloatAxioms.eqb_spec, abs_spec in Hi.
  destruct (Prim2SF w) as [s|s| |s m e]; eauto; [discriminate | congruence].
Qed.

(** A zero times a finite value, times 180, divided by pi, is a zero. *)
Lemma zero_scaled_is_zero (v w : float) :
  (v =? 0)%float = true -> is_finite w = true ->
  (v * w * 180 / np_pi =? 0)%float = true.
Proof.
  intros [s Hv]%eqb_zero Hw. apply eqb_zero.
  assert (exists s', Prim2SF (v * w) = S754_zero s') as [s1 H1].
  { rewrite mul_spec, Hv.
    destruct (is_finite_Prim2SF _ Hw) as [[s' ->] | (s' & m & e & ->)];
      eexists; reflexivity. }
  assert (exists s', Prim2SF (v * w * 180) = S754_zero s') as [s2 H2].
  { rewrite mul_spec, H1. eexists. reflexivity. }
  rewrite div_spec, H2. eexists. reflexivity.
Qed.

(** *** Body position (lines 150-181) *)

Lemma classify_shape (x y z : float) :
  exists p t,
    classify x y z
    = (p, t,
       if (0.71 <? x)%float then nan
       else (np_sign (np_arcsin (- y)) * np_arccos (- z) * 180 / np_pi)%float).
Proof.
  unfold classify; cbv zeta. destruct (0.5 <? abs y)%float; eauto.
Qed.

(** C7: on a clipped sample (x, y, z): when [|y| > 0.5] the position is
    LEFT_SIDE for [y < 0] and RIGHT_SIDE otherwise, and the tilt is NaN;
    otherwise the position is PRONE when [z > x] and [z > y], else SUPINE
    when [z < -0.966], else UPRIGHT when [x > 0.966], else TILT, and the
    tilt is [asin(x) * 180 / pi]; whichever branch was taken, the
    rotation is NaN when [x > 0.71] and
    [sign(asin(-y)) * acos(-z) * 180 / pi] otherwise. *)
Theorem classify_decision_tree (x y z : float) :
  ((0.5 <? abs y)%float = true ->
     position_of (classify x y z)
     = (if (y <? 0)%float then LEFT_SIDE else RIGHT_SIDE)
     /\ tilt_of (classify x y z) = nan)
  /\ ((0.5 <? abs y)%float = false ->
        position_of (classify x y z)
        = (if (x <? z)%float && (y <? z)%float then PRONE
           else if (z <? -0.966)%float then SUPINE
           else if (0.966 <? x)%float then UPRIGHT
           else TILT)
        /\ tilt_of (classify x y z) = (np_arcsin x * 180 / np_pi)%float)
  /\ ((0.71 <? x)%float = true -> rotation_of (classify x y z) = nan)
  /\ ((0.71 <? x)%float = false ->
        rotation_of (classify x y z)
        = (np_sign (np_arcsin (- y)) * np_arccos (- z) * 180 / np_pi)%float).
Proof.
  unfold classify, position_of, tilt_of, rotation_of; cbv zeta.
  split; [|split; [|split]]; intros Hc; rewrite ?Hc.
  - now split.
  - now split.
  - now destruct (0.5 <? abs y)%float.
  - now destruct (0.5 <? abs y)%float.
Qed.

(** C10: on a sample with [y = 0] and [x <= 0.71] the rotation is a zero
    whatever [z] is, as long as [arcsin] maps a zero to a zero and
    [arccos] is finite at [-z] (it is on the whole of [-1, 1]): the
    factor [sign(asin(-y))] is 0 and multiplies everything else. *)
Theorem rotation_zero_when_y_zero (x y z : float) :
  (forall a, (a =? 0)%float = true -> (np_arcsin a =? 0)%float = true) ->
  (y =? 0)%float = true ->
  (x <=? 0.71)%float = true ->
  is_finite (np_arccos (- z)) = true ->
  (rotation_of (classify x y z) =? 0)%float = true
  /\ np_sign (np_arcsin (- y)) = 0%float.
Proof.
  intros Hasin Hy Hx Hacos.
  assert (np_sign (np_arcsin (- y)) = 0%float) as Hsign
    by (apply np_sign_zero, Hasin, eqb_zero_opp, Hy).
  split; [|exact Hsign].
  destruct (classify_shape x y z) as [p [t ->]]. unfold rotation_of; cbn [snd].
  rewrite (leb_not_ltb _ _ Hx), Hsign.
  now apply zero_scaled_is_zero.
Qed.

(** *** Spectrum (lines 93-99) *)

Lemma len_app_one {A : Type} (l : list A) (x : A) : len (l ++ [x]) = len l + 1.
Proof. unfold len. rewrite length_app. simpl. lia. Qed.

(** The scan of [np.argmax], started after the prefix [pre] whose first
    largest element [mp] sits at [best], ends on the first largest
    element of the whole array. *)
Lemma argmax_scan_first_max (a pre : list float) (mp : float) (best : nat) :
  (forall v, In v (pre ++ a) -> is_nan v = false) ->
  pre !! best = Some mp ->
  (forall j v, pre !! j = Some v -> (v <=? mp)%float = true) ->
  (forall j v, pre !! j = Some v -> (j < best)%nat -> (v <? mp)%float = true) ->
  exists (k : nat) (top : float),
    argmax_scan a (len pre) mp (Z.of_nat best) = Z.of_nat k
    /\ (pre ++ a) !! k = Some top
    /\ (forall j v, (pre ++ a) !! j = Some v -> (v <=? top)%float = true)
    /\ (forall j v, (pre ++ a) !! j = Some v -> (j < k)%nat -> (v <? top)%float = true).
Proof.
  revert pre mp best; induction a as [|x a IH]; intros pre mp best Hnan Hb Hle Hlt.
  - exists best, mp. rewrite app_nil_r. auto.
  - assert (is_nan x = false) as Hx by (apply Hnan, in_or_app; right; now left).
    assert (is_nan mp = false) as Hmp
      by (apply Hnan, in_or_app; left; eapply list_elem_of_In, list_elem_of_lookup_2, Hb).
    assert (forall j v, pre !! j = Some v -> is_nan v = false) as Hpre
      by (intros j v Hv; apply Hnan, in_or_app; left;
          eapply list_elem_of_In, list_elem_of_lookup_2, Hv).
    cbn [argmax_scan]. rewrite Hx.
    replace (len pre + 1) with (len (pre ++ [x])) by apply len_app_one.
    replace (pre ++ x :: a) with ((pre ++ [x]) ++ a) in *
      by (now rewrite <- app_assoc).
    destruct (x <=? mp)%float eqn:Hcmp.
    + apply IH; try assumption.
      * rewrite lookup_app_l; [assumption | now apply lookup_lt_Some in Hb].
      * intros j v Hv. apply lookup_snoc_Some in Hv as [[_ Hv] | [_ <-]]; eauto.
      * intros j v Hv Hj. apply lookup_snoc_Some in Hv as [[_ Hv] | [-> _]]; eauto.
        apply lookup_lt_Some in Hb. lia.
    + apply leb_false_ltb in Hcmp; [|assumption..].
      change (len pre) with (Z.of_nat (length pre)).
      apply IH; try assumption.
      * now rewrite lookup_app_r, Nat.sub_diag.
      * intros j v Hv. apply lookup_snoc_Some in Hv as [[_ Hv] | [_ <-]].
        -- apply ltb_leb. eapply leb_ltb_trans; [..|eapply Hle, Hv|exact Hcmp]; eauto.
        -- now apply leb_refl.
      * intros j v Hv Hj. apply lookup_snoc_Some in Hv as [[_ Hv] | [-> _]]; [|lia].
        eapply leb_ltb_trans; [..|eapply Hle, Hv|exact Hcmp]; eauto.
Qed.

(** On an array without NaN, [np.argmax] returns the first index of the
    largest element, index 0 taking part like any other. *)
Lemma np_argmax_first_max (a : list float) :
  a <> [] ->
  (forall v, In v a -> is_nan v = false) ->
  exists (k : nat) (top : float),
    np_argmax a = Ok (Z.of_nat k)
    /\ a !! k = Some top
    /\ (forall j v, a !! j = Some v -> (v <=? top)%float = true)
    /\ (forall j v, a !! j = Some v -> (j < k)%nat -> (v <? top)%float = true).
Proof.
  destruct a as [|x a]; [congruence|]. intros _ Hnan.
  assert (is_nan x = false) as Hx by (apply Hnan; now left).
  destruct (argmax_scan_first_max a [x] x 0) as (k & top & Hk & Htop & Hle & Hlt).
  - exact Hnan.
  - reflexivity.
  - intros [|j] v Hv; [|discriminate]. cbn in Hv. simplify_eq. now apply leb_refl.
  - intros j v _ Hj. lia.
  - exists k, top. cbn [np_argmax]. rewrite Hx. change (len [x]) with 1 in Hk.
    change (Z.of_nat 0) with 0 in Hk. now rewrite Hk.
Qed.

Lemma np_max_Ok (a : list float) : a <> [] -> exists top, np_max a = Ok top.
Proof. destruct a; [congruence|]. intros _. eexists. reflexivity. Qed.

Lemma np_rfftfreq_length (n : Z) (d : float) (freq : list float) :
  np_rfftfreq n d = Ok freq -> length freq = Z.to_nat (n / 2 + 1).
Proof.
  unfold np_rfftfreq. intros H. apply bind_Ok in H as (val & _ & H).
  inversion H. now rewrite length_map, length_seq.
Qed.

Lemma np_argmax_Ok (a : list float) : a <> [] -> exists k, np_argmax a = Ok k.
Proof.
  destruct a as [|x a]; [congruence|]. intros _. cbn [np_argmax].
  destruct (is_nan x); eauto.
Qed.

(** C3 (as the code has it): for a series of two samples or more on
    which the FFT and the two divisions succeed, [spectrum] returns; the
    peak frequency is [np.argmax] of the magnitudes of all bins, the DC
    bin included, times [freq[1]], the frequency resolution; the returned
    amplitudes are the magnitudes divided by 1000.  When no magnitude is
    NaN, that index is the first one holding the largest magnitude of the
    whole one-sided spectrum. *)
Theorem spectrum_peak_over_all_bins (sig : list float) (sample_rate : Z)
    (mag : list complex) (d : float) (freq : list float) :
  np_fft_rfft sig = Ok mag ->
  mag <> [] ->
  2 <= len sig ->
  py_truediv 1 (float_of_Z sample_rate) = Ok d ->
  np_rfftfreq (len sig) d = Ok freq ->
  exists (k : Z) (f1 top : float),
    np_argmax (map np_absolute mag) = Ok k
    /\ freq !! 1%nat = Some f1
    /\ np_max (map np_absolute mag) = Ok top
    /\ spectrum sig sample_rate
       = Ok (map (fun m => (np_absolute m / 1000)%float) mag, freq,
             (float_of_Z k * f1)%float, (top / 1000)%float)
    /\ ((forall m, In m mag -> is_nan (np_absolute m) = false) ->
        0 <= k
        /\ exists v_k,
            map np_absolute mag !! Z.to_nat k = Some v_k
            /\ (forall j v, map np_absolute mag !! j = Some v ->
                            (v <=? v_k)%float = true)
            /\ (forall j v, map np_absolute mag !! j = Some v ->
                            (j < Z.to_nat k)%nat -> (v <? v_k)%float = true)).
Proof.
  intros Hfft Hne Hlen Hd Hfreq.
  assert (map np_absolute mag <> []) as Hne' by (now destruct mag).
  destruct (np_argmax_Ok _ Hne') as [k Hk].
  destruct (np_max_Ok _ Hne') as [top Htop].
  assert (is_Some (freq !! 1%nat)) as [f1 Hf1].
  { apply lookup_lt_is_Some. rewrite (np_rfftfreq_length _ _ _ Hfreq).
    assert (1 <= len sig / 2) by (apply Z.div_le_lower_bound; lia). lia. }
  exists k, f1, top. do 3 (split; [assumption|]). split.
  - unfold spectrum. rewrite Hfft; cbn [mbind result_bind].
    rewrite Hd; cbn [mbind result_bind]. rewrite Hfreq; cbn [mbind result_bind].
    rewrite Hk; cbn [mbind result_bind].
    unfold py_index. change (1 <? 0) with false. cbn match.
    change (Z.to_nat 1) with 1%nat. rewrite Hf1; cbn [mbind result_bind].
    now rewrite Htop.
  - intros Hnan.
    destruct (np_argmax_first_max _ Hne') as (k' & v_k & Hk' & Hv & Hle & Hlt).
    { intros v (m & <- & Hm)%in_map_iff. now apply Hnan. }
    rewrite Hk in Hk'. inversion Hk'; subst k. rewrite Nat2Z.id.
    split; [lia|]. now exists v_k.
Qed.

(** *** The loop of [body_pos_and_angles] *)

Lemma body_pos_fold (acc : list acc_row) (out : angles) :
  fold_left body_pos_step acc out
  = {| out_time := out_time out ++ map time acc;
       out_pos := out_pos out ++ map (fun row => Pos_value (position_of (classify_row row))) acc;
       out_pos_name :=
         out_pos_name out ++ map (fun row => Pos_name (position_of (classify_row row))) acc;
       out_thetas := out_thetas out ++ map (fun row => tilt_of (classify_row row)) acc;
       out_phis := out_phis out ++ map (fun row => rotation_of (classify_row row)) acc |}.
Proof.
  revert out; induction acc as [|row acc IH]; intros out.
  - destruct out; cbn. now rewrite !app_nil_r.
  - cbn [fold_left map]. rewrite IH. unfold body_pos_step.
    destruct (classify_row row) as [[position tilt] rotation].
    cbn [out_time out_pos out_pos_name out_thetas out_phis
         position_of tilt_of rotation_of fst snd].
    now rewrite <- !app_assoc.
Qed.

(** *** File names ([main], lines 188-190 and 215) *)

Lemma py_startswith_spec (p s : string) :
  py_startswith p s = true <-> exists b, s = p +:+ b.
Proof.
  revert s; induction p as [|a p IH]; intros s; cbn.
  - split; eauto.
  - destruct s as [|c s]; cbn.
    + split; [discriminate | intros [b Hb]; discriminate].
    + rewrite andb_true_iff, Ascii.eqb_eq, IH. split.
      * intros [-> [b ->]]. now exists b.
      * intros [b Hb]. inversion Hb; subst. eauto.
Qed.

Lemma py_contains_spec (p s : string) :
  py_contains p s = true <-> exists a b, s = a +:+ p +:+ b.
Proof.
  induction s as [|c s IH]; cbn [py_contains]; rewrite orb_true_iff.
  - rewrite py_startswith_spec. split.
    + intros [[b Hb] | H]; [|discriminate]. now exists EmptyString, b.
    + intros (a & b & H). left. destruct a; [now exists b | discriminate].
  - rewrite py_startswith_spec, IH. split.
    + intros [[b Hb] | (a & b & ->)].
      * now exists EmptyString, b.
      * now exists (String c a), b.
    + intros (a & b & H). destruct a as [|c' a].
      * left. now exists b.
      * right. inversion H; subst. now exists a, b.
Qed.

(** X21: A file is processed exactly when [".EDF"] or [".edf"] occurs somewhere
    in its name, as its ending or anywhere before it. *)
Theorem is_edf_file_anywhere (filename : string) :
  is_edf_file filename = true
  <-> exists a b, filename = a +:+ ".EDF" +:+ b \/ filename = a +:+ ".edf" +:+ b.
Proof.
  unfold is_edf_file.
  rewrite negb_true_iff, andb_false_iff, !negb_false_iff, !py_contains_spec.
  split.
  - intros [(a & b & H) | (a & b & H)]; exists a, b; auto.
  - intros (a & b & [H | H]); [left | right]; now exists a, b.
Qed.

Lemma py_lstrip_begins (chars s : string) :
  begins_with_any chars (py_lstrip chars s) = false.
Proof.
  induction s as [|c s IH]; [reflexivity|]. cbn [py_lstrip].
  destruct (char_in c chars) eqn:E; [exact IH | cbn; exact E].
Qed.

Lemma py_rstrip_ends (chars s : string) :
  ends_with_any chars (py_rstrip chars s) = false.
Proof.
  induction s as [|c s IH]; [reflexivity|]. cbn [py_rstrip].
  destruct (py_rstrip chars s) as [|c' r] eqn:E.
  - destruct (char_in c chars) eqn:Ec; [reflexivity | cbn; exact Ec].
  - exact IH.
Qed.

Lemma py_rstrip_begins (chars s : string) :
  begins_with_any chars s = false -> begins_with_any chars (py_rstrip chars s) = false.
Proof.
  destruct s as [|c s]; [reflexivity|]. cbn [py_rstrip begins_with_any]. intros Hc.
  destruct (py_rstrip chars s); [now rewrite Hc | exact Hc].
Qed.

Lemma py_lstrip_id (chars s : string) :
  begins_with_any chars s = false -> py_lstrip chars s = s.
Proof. destruct s as [|c s]; [reflexivity|]. cbn. now intros ->. Qed.

Lemma py_rstrip_id (chars s : string) :
  ends_with_any chars s = false -> py_rstrip chars s = s.
Proof.
  induction s as [|c s IH]; [reflexivity|]. cbn [py_rstrip ends_with_any].
  destruct s as [|c' s].
  - cbn. now intros ->.
  - intros H. now rewrite (IH H).
Qed.

Lemma py_rstrip_all_in (chars t : string) :
  all_in chars t = true -> py_rstrip chars t = EmptyString.
Proof.
  induction t as [|c t IH]; [reflexivity|]. cbn [all_in py_rstrip].
  intros [Hc Ht]%andb_true_iff. now rewrite (IH Ht), Hc.
Qed.

Lemma py_rstrip_app (chars s t : string) :
  all_in chars t = true -> py_rstrip chars (s +:+ t) = py_rstrip chars s.
Proof.
  intros Ht. induction s as [|c s IH].
  - now apply py_rstrip_all_in.
  - change (String c s +:+ t) with (String c (s +:+ t)). cbn [py_rstrip].
    now rewrite IH.
Qed.

Lemma py_lstrip_all_in (chars t : string) :
  all_in chars t = true -> py_lstrip chars t = EmptyString.
Proof.
  induction t as [|c t IH]; [reflexivity|]. cbn [all_in py_lstrip].
  intros [Hc Ht]%andb_true_iff. now rewrite Hc, (IH Ht).
Qed.

Lemma py_strip_app (chars s t : string) :
  all_in chars t = true -> py_strip chars (s +:+ t) = py_strip chars s.
Proof.
  intros Ht. unfold py_strip. induction s as [|c s IH].
  - change (EmptyString +:+ t) with t. now rewrite (py_lstrip_all_in _ _ Ht).
  - change (String c s +:+ t) with (String c (s +:+ t)). cbn [py_lstrip].
    destruct (char_in c chars); [exact IH|].
    change (String c (s +:+ t)) with (String c s +:+ t). now apply py_rstrip_app.
Qed.

(** What is left of a name after [strip('.EDF')] neither begins nor ends
    with one of the characters ".", "E", "D", "F", and a name that neither
    begins nor ends with one of them is left as it is. *)
Lemma py_strip_spec (chars s : string) :
  begins_with_any chars (py_strip chars s) = false
  /\ ends_with_any chars (py_strip chars s) = false
  /\ (begins_with_any chars s = false -> ends_with_any chars s = false ->
      py_strip chars s = s).
Proof.
  unfold py_strip. repeat split.
  - apply py_rstrip_begins, py_lstrip_begins.
  - apply py_rstrip_ends.
  - intros Hb He. now rewrite (py_lstrip_id _ _ Hb), (py_rstrip_id _ _ He).
Qed.

(** X22: For a file named [base ++ ".EDF"], line 215 strips the ending and then
    goes on into the base name: the result is [strip('.EDF')] of the base
    name, which is the base name itself exactly when that neither begins
    nor ends with ".", "E", "D" or "F". *)
Theorem excel_filename_of_EDF (base : string) :
  excel_filename (base +:+ ".EDF") = py_strip ".EDF" base +:+ ".xlsx"
  /\ (py_strip ".EDF" base = base
      <-> begins_with_any ".EDF" base = false /\ ends_with_any ".EDF" base = false).
Proof.
  split.
  - unfold excel_filename. now rewrite py_strip_app.
  - destruct (py_strip_spec ".EDF" base) as (Hb & He & Hid). split.
    + intros H. rewrite H in Hb, He. now split.
    + intros [Hb' He']. now apply Hid.
Qed.

Lemma ends_with_any_app (chars s t : string) :
  t <> EmptyString -> ends_with_any chars (s +:+ t) = ends_with_any chars t.
Proof.
  intros Ht. induction s as [|c s IH]; [reflexivity|].
  change (String c s +:+ t) with (String c (s +:+ t)). cbn [ends_with_any].
  destruct (s +:+ t) eqn:E; [|exact IH].
  destruct s; [change (t = EmptyString) in E; congruence | discriminate].
Qed.

Lemma string_app_assoc (s t u : string) : (s +:+ t) +:+ u = s +:+ t +:+ u.
Proof.
  induction s as [|c s IH]; [reflexivity|].
  change (String c (s +:+ t) +:+ u = String c (s +:+ t +:+ u)).
  change (String c ((s +:+ t) +:+ u) = String c (s +:+ t +:+ u)). now rewrite IH.
Qed.

(** X23: A file taken for its lower-case ending keeps that ending in the
    spreadsheet's name: [strip('.EDF')] is case-sensitive and stops at the
    final "f". *)
Theorem excel_filename_of_edf (stem : string) :
  stem <> EmptyString ->
  begins_with_any ".EDF" stem = false ->
  is_edf_file (stem +:+ ".edf") = true
  /\ excel_filename (stem +:+ ".edf") = stem +:+ ".edf.xlsx".
Proof.
  intros Hne Hb. split.
  - unfold is_edf_file.
    assert (py_contains ".edf" (stem +:+ ".edf") = true) as ->
      by (apply py_contains_spec; now exists stem, EmptyString).
    now rewrite andb_false_r.
  - unfold excel_filename.
    destruct (py_strip_spec ".EDF" (stem +:+ ".edf")) as (_ & _ & ->).
    + now rewrite string_app_assoc.
    + destruct stem; [congruence | exact Hb].
    + now rewrite ends_with_any_app.
Qed.

(** *** The sample-rate dictionary ([get_data], lines 51-52, and its readers) *)

Lemma header_rates_frame (hs : list signal_header) (d : gmap string Z) (key : string) :
  (forall h, In h hs -> hdr_label h <> key) ->
  fold_left (fun d header => <[hdr_label header := hdr_sample_rate header]> d) hs d !! key
  = d !! key.
Proof.
  revert d; induction hs as [|h hs IH]; intros d Hne; [reflexivity|].
  cbn [fold_left]. rewrite IH by (intros h' Hh'; apply Hne; now right).
  apply lookup_insert_ne, Hne. now left.
Qed.

Lemma header_rates_None (hs : list signal_header) (d : gmap string Z) (key : string) :
  fold_left (fun d header => <[hdr_label header := hdr_sample_rate header]> d) hs d !! key
  = None
  <-> d !! key = None /\ forall h, In h hs -> hdr_label h <> key.
Proof.
  revert d; induction hs as [|h hs IH]; intros d; cbn [fold_left].
  - split; [intros H; split; [exact H | intros h []] | now intros [H _]].
  - rewrite IH. split.
    + intros [Hd Hhs].
      destruct (decide (hdr_label h = key)) as [E | E].
      * rewrite E, lookup_insert_eq in Hd. discriminate.
      * rewrite lookup_insert_ne in Hd by exact E. split; [exact Hd|].
        intros h' [<- | Hh']; [exact E | now apply Hhs].
    + intros [Hd Hhs]. split.
      * rewrite lookup_insert_ne; [exact Hd | apply Hhs; now left].
      * intros h' Hh'. apply Hhs. now right.
Qed.

(** X15: The dictionary built from the signal headers has an entry exactly for
    the labels that occur, and gives each label the sample rate of the last
    header that carries it. *)
Theorem header_sample_rates_lookup (signal_headers : list signal_header) :
  (forall key,
      header_sample_rates signal_headers !! key = None
      <-> forall h, In h signal_headers -> hdr_label h <> key)
  /\ (forall before h after,
        signal_headers = before ++ h :: after ->
        (forall h', In h' after -> hdr_label h' <> hdr_label h) ->
        header_sample_rates signal_headers !! hdr_label h = Some (hdr_sample_rate h)).
Proof.
  unfold header_sample_rates. split.
  - intros key. rewrite header_rates_None. split; [now intros [_ H] | now split].
  - intros before h after -> Hlast.
    rewrite fold_left_app. cbn [fold_left].
    rewrite header_rates_frame by exact Hlast. apply lookup_insert_eq.
Qed.

Lemma calculate_rr_KeyError (acc : list acc_row) (sample_rate : gmap string Z)
    (window_length calc_every : Z) :
  sample_rate !! "Accelerometer_X" = None \/ sample_rate !! "ECG" = None ->
  calculate_rr acc sample_rate window_length calc_every = Raise KeyError.
Proof.
  unfold calculate_rr, rr_windows, py_getitem; cbv zeta. intros [H | H].
  - now rewrite H.
  - destruct (sample_rate !! "Accelerometer_X"); [|reflexivity].
    cbn [mbind result_bind]. now rewrite H.
Qed.

(** X9: [calculate_rr] reads two entries of the dictionary: without an entry
    for ["Accelerometer_X"], or without one for ["ECG"], it raises
    [KeyError], whatever the data. *)
Theorem calculate_rr_needs_both_rates (acc : list acc_row) (sample_rate : gmap string Z)
    (window_length calc_every : Z) :
  sample_rate !! "Accelerometer_X" = None \/ sample_rate !! "ECG" = None ->
  calculate_rr acc sample_rate window_length calc_every = Raise KeyError.
Proof. apply calculate_rr_KeyError. Qed.

Lemma calculate_hr_insert_ecg (ecg : series) (sample_rate : gmap string Z)
    (window_length calc_every rate : Z) :
  calculate_hr ecg (<["ECG" := rate]> sample_rate) window_length calc_every
  = calculate_hr ecg sample_rate window_length calc_every.
Proof. unfold calculate_hr; cbv zeta. now rewrite insert_insert_eq. Qed.

(** X14: The ECG rate of the header plays no part in the estimates: whatever it
    is, and whether or not the header has one, [calculate_hr] overwrites it
    with 100 before anything reads it. *)
Theorem process_recording_ignores_header_ecg_rate (ecg : series) (acc : list acc_row)
    (sample_rate : gmap string Z) (rate : Z) :
  process_recording ecg acc (<["ECG" := rate]> sample_rate)
  = process_recording ecg acc sample_rate.
Proof. unfold process_recording. now rewrite calculate_hr_insert_ecg. Qed.

(** *** Window geometry (lines 113-116 and 133-137) *)

Lemma for_each_Ok {A B : Type} (body : A -> result B) (l : list A) :
  (forall x, In x l -> exists y, body x = Ok y) -> exists ys, for_each body l = Ok ys.
Proof.
  induction l as [|x l IH]; intros H; [now exists []|].
  destruct (H x) as [y Hy]; [now left|].
  destruct IH as [ys Hys]; [intros x' Hx'; apply H; now right|].
  exists (y :: ys). cbn [for_each]. now rewrite Hy; cbn; rewrite Hys.
Qed.

Lemma py_range_Ok (start stop step : Z) :
  step <> 0 -> exists l, py_range start stop step = Ok l.
Proof.
  intros Hs. unfold py_range. destruct (Z.eqb_spec step 0); [contradiction | eauto].
Qed.

Lemma py_range_zero_step (start stop : Z) : py_range start stop 0 = Raise ValueError.
Proof. reflexivity. Qed.

Lemma py_range_length (start stop step : Z) (l : list Z) :
  py_range start stop step = Ok l ->
  length l = Z.to_nat (range_length start stop step).
Proof.
  unfold py_range. destruct (step =? 0); [discriminate|].
  intros H; inversion H. now rewrite length_map, length_seq.
Qed.

Lemma py_range_nothing_to_cover (start stop step : Z) :
  0 < step -> stop <= start -> py_range start stop step = Ok [].
Proof.
  intros Hs Hle. unfold py_range, range_length.
  destruct (Z.eqb_spec step 0); [lia|]. destruct (Z.ltb_spec 0 step); [|lia].
  assert ((stop - start + step - 1) / step <= 0) as Hq.
  { assert ((stop - start + step - 1) / step < 1); [|lia].
    apply Z.div_lt_upper_bound; lia. }
  now replace (Z.to_nat ((stop - start + step - 1) / step)) with 0%nat by lia.
Qed.

Lemma py_slice_full {A : Type} (l : list A) (i w : Z) :
  0 <= i -> 0 <= w -> i + w <= len l ->
  length (py_slice l i (i + w)) = Z.to_nat w.
Proof.
  intros Hi Hw Hlen. unfold py_slice, slice_bound, len in *; cbv zeta.
  destruct (Z.ltb_spec i 0); [lia|]. destruct (Z.ltb_spec (i + w) 0); [lia|].
  rewrite length_take, length_drop. lia.
Qed.

Lemma py_index_in_range {A : Type} (l : list A) (i : Z) :
  0 <= i < len l -> exists x, py_index l i = Ok x /\ l !! Z.to_nat i = Some x.
Proof.
  intros Hi. unfold py_index, len in *; cbv zeta.
  assert ((i <? 0) = false) as E by lia. rewrite !E.
  destruct (lookup_lt_is_Some_2 l (Z.to_nat i)) as [x Hx]; [lia|].
  rewrite Hx. eauto.
Qed.

Lemma py_index_nonneg_lookup {A : Type} (l : list A) (i : Z) (x : A) :
  0 <= i -> py_index l i = Ok x -> l !! Z.to_nat i = Some x.
Proof.
  intros Hi. unfold py_index; cbv zeta.
  assert ((i <? 0) = false) as E by lia. rewrite !E.
  destruct (l !! Z.to_nat i); intros H; now inversion H.
Qed.

(** The loop bound [len(a) - win] keeps every window inside the array,
    with one place to spare for the timestamp taken at [i + win]. *)
Lemma window_start_in_bounds (n win step : Z) (starts : list Z) (i : Z) :
  0 < step -> py_range 0 (n - win) step = Ok starts -> In i starts ->
  0 <= i /\ i + win < n.
Proof.
  intros Hs Hr Hi.
  apply (py_range_positive_step _ _ _ _ i Hs Hr) in Hi as (k & Hk & -> & Hlt). nia.
Qed.

Lemma hr_windows_succeed (index : list Z) (ecg_processed : list float)
    (sample_rate : gmap string Z) (rate window_length calc_every : Z) :
  (forall w, w <> [] -> exists p, np_percentile w 99 = Ok p) ->
  sample_rate !! "ECG" = Some rate ->
  0 < rate * calc_every ->
  0 < window_length * rate ->
  (length ecg_processed <= length index)%nat ->
  exists rows,
    hr_windows index ecg_processed sample_rate window_length calc_every = Ok rows
    /\ length rows
       = Z.to_nat (range_length 0 (len ecg_processed - window_length * rate)
                                (rate * calc_every)).
Proof.
  intros Hperc Hrate Hstep Hwin Hlen.
  destruct (py_range_Ok 0 (len ecg_processed - window_length * rate)
                        (rate * calc_every)) as [starts Hs]; [lia|].
  destruct (for_each_Ok (hr_window index ecg_processed rate (window_length * rate)) starts)
    as [rows Hrows].
  { intros i Hi.
    destruct (window_start_in_bounds _ _ _ _ _ Hstep Hs Hi) as [Hi0 Hi1].
    unfold hr_window, detect_beats, beat_threshold; cbv zeta.
    destruct (Hperc (py_slice ecg_processed i (i + window_length * rate))) as [p Hp].
    { intros E. apply (f_equal length) in E.
      rewrite py_slice_full in E by lia. cbn in E. lia. }
    rewrite Hp; cbn [mbind result_bind].
    destruct (py_index_in_range index (i + window_length * rate)) as (t & Ht & _).
    { unfold len in *. lia. }
    rewrite Ht. eauto. }
  exists rows. split.
  - unfold hr_windows, py_getitem. rewrite Hrate; cbn [mbind result_bind].
    now rewrite Hs.
  - rewrite (for_each_length _ _ _ Hrows). now apply py_range_length.
Qed.

(** X3: The heart-rate loop raises nothing of its own: with a positive stride
    and a positive window length, on a processed signal no longer than the
    index, it returns one row per window start as soon as the percentile
    is defined on non-empty windows.  No slice is short and no timestamp
    look-up is out of range. *)
Theorem hr_windows_total (index : list Z) (ecg_processed : list float)
    (sample_rate : gmap string Z) (rate window_length calc_every : Z) :
  (forall w, w <> [] -> exists p, np_percentile w 99 = Ok p) ->
  sample_rate !! "ECG" = Some rate ->
  0 < rate * calc_every ->
  0 < window_length * rate ->
  (length ecg_processed <= length index)%nat ->
  exists rows,
    hr_windows index ecg_processed sample_rate window_length calc_every = Ok rows
    /\ length rows
       = Z.to_nat (range_length 0 (len ecg_processed - window_length * rate)
                                (rate * calc_every)).
Proof. apply hr_windows_succeed. Qed.

(** X4: [calculate_hr] returns whenever the library calls do: the design for
    3 to 33.3 Hz at 100 Hz, the filtering (which keeps the length) and the
    percentile of a non-empty window.  The dictionary's content, the
    length of the recording and the values in it cannot make it raise. *)
Theorem calculate_hr_total (ecg : series) (sample_rate : gmap string Z)
    (window_length calc_every : Z) (ba : list float * list float) :
  signal_butter 2 (3.0 / (0.5 * 100))%float (33.3 / (0.5 * 100))%float = Ok ba ->
  (forall x, exists y, signal_lfilter (fst ba) (snd ba) x = Ok y /\ length y = length x) ->
  (forall w, w <> [] -> exists p, np_percentile w 99 = Ok p) ->
  0 < calc_every ->
  0 < window_length ->
  exists hr,
    calculate_hr ecg sample_rate window_length calc_every
    = Ok (hr, <["ECG" := 100]> sample_rate).
Proof.
  intros Hdesign Hfilter Hperc Hce Hwl.
  unfold calculate_hr; cbv zeta. rewrite py_getitem_insert; cbn [mbind result_bind].
  assert (butter_bandpass 3.0 33.3 (float_of_Z 100) 2 = Ok ba) as Hbb by exact Hdesign.
  rewrite Hbb; cbn [mbind result_bind].
  unfold butter_bandpass_filter. rewrite Hbb; cbn [mbind result_bind].
  destruct (Hfilter (map snd (resample_10ms_mean ecg))) as (y & Hy & Hlen).
  rewrite Hy; cbn [mbind result_bind].
  destruct (hr_windows_succeed (map fst (resample_10ms_mean ecg)) (differentiate y)
              (<["ECG" := 100]> sample_rate) 100 window_length calc_every)
    as (rows & Hrows & _); try assumption; try lia.
  - apply lookup_insert_eq.
  - unfold differentiate, np_negative; cbv zeta.
    rewrite !length_map, np_diff_length, Hlen, length_map. lia.
  - rewrite Hrows; cbn [mbind result_bind]. eauto.
Qed.

(** X5: With a positive stride ([rate * calc_every > 0], [rate] the
    dictionary's ECG rate), a recording whose processed signal is no longer
    than one window gives no heart-rate row at all, and no exception: the
    loop's range is empty.  A processed signal of exactly one window's
    length is such a recording. *)
Theorem hr_windows_short_recording (index : list Z) (ecg_processed : list float)
    (sample_rate : gmap string Z) (rate window_length calc_every : Z) :
  sample_rate !! "ECG" = Some rate ->
  0 < rate * calc_every ->
  len ecg_processed <= window_length * rate ->
  hr_windows index ecg_processed sample_rate window_length calc_every = Ok [].
Proof.
  intros Hrate Hstep Hshort. unfold hr_windows, py_getitem.
  rewrite Hrate; cbn [mbind result_bind].
  now rewrite py_range_nothing_to_cover by lia.
Qed.

(** X6: With [calc_every = 0] (or a recorded rate of 0) both window loops
    raise [ValueError], the step of [range] being zero. *)
Theorem zero_stride_raises (index : list Z) (values : list float)
    (sample_rate : gmap string Z) (rate_ecg rate_acc window_length calc_every : Z) :
  sample_rate !! "ECG" = Some rate_ecg ->
  sample_rate !! "Accelerometer_X" = Some rate_acc ->
  rate_ecg * calc_every = 0 ->
  hr_windows index values sample_rate window_length calc_every = Raise ValueError
  /\ rr_windows index values sample_rate window_length calc_every = Raise ValueError.
Proof.
  intros He Ha Hz. unfold hr_windows, rr_windows, py_getitem.
  rewrite He, Ha; cbn [mbind result_bind]. rewrite Hz. now split.
Qed.

(** X7: On an index that is a regular grid, [index[j] = t0 + j * dt], the
    heart-rate row of window [k] carries
    [t0 + (k * (100 * calc_every) + window_length * 100) * dt]:
    consecutive rows are [100 * calc_every] grid steps apart, that is
    [calc_every] seconds on the 10 ms grid. *)
Theorem hr_rows_on_grid (index : list Z) (ecg_processed : list float)
    (sample_rate : gmap string Z) (window_length calc_every t0 dt : Z)
    (rows : list (Z * float)) :
  (forall j x, index !! j = Some x -> x = t0 + Z.of_nat j * dt) ->
  0 <= calc_every ->
  0 <= window_length ->
  hr_windows index ecg_processed (<["ECG" := 100]> sample_rate)
             window_length calc_every = Ok rows ->
  forall (k : nat) (t : Z) (v : float),
    rows !! k = Some (t, v) ->
    t = t0 + (Z.of_nat k * (100 * calc_every) + window_length * 100) * dt.
Proof.
  intros Hgrid Hce Hwl H k t v Hk. unfold hr_windows in H.
  rewrite py_getitem_insert in H. cbn [mbind result_bind] in H.
  apply bind_Ok in H as (starts & Hs & H).
  destruct (for_each_lookup _ _ _ H k _ Hk) as (i & Hi & Hrow).
  apply (py_range_lookup _ _ _ _ _ _ Hs) in Hi.
  apply hr_window_inv in Hrow as (beats & _ & Ht & _). cbn [fst] in Ht.
  apply py_index_nonneg_lookup in Ht; [|nia].
  apply Hgrid in Ht. rewrite Ht. rewrite Z2Nat.id by nia. subst i. lia.
Qed.

(** X8: On an accelerometer index that is a regular grid, with a stride
    [calc_every * ECG rate] and a window length
    [window_length * accelerometer rate] that are not negative, the
    respiratory-rate row of window [k] carries
    [t0 + (k * (calc_every * ECG rate) + window_length * accelerometer
    rate) * dt]: consecutive rows are [calc_every * ECG rate] accelerometer
    samples apart, which is [calc_every] seconds only when the two rates
    are equal. *)
Theorem rr_rows_on_grid (index : list Z) (acc_tot : list float)
    (sample_rate : gmap string Z) (rate_ecg rate_acc window_length calc_every t0 dt : Z)
    (rows : list (Z * float)) :
  (forall j x, index !! j = Some x -> x = t0 + Z.of_nat j * dt) ->
  sample_rate !! "ECG" = Some rate_ecg ->
  sample_rate !! "Accelerometer_X" = Some rate_acc ->
  0 <= calc_every * rate_ecg ->
  0 <= window_length * rate_acc ->
  rr_windows index acc_tot sample_rate window_length calc_every = Ok rows ->
  forall (k : nat) (t : Z) (v : float),
    rows !! k = Some (t, v) ->
    t = t0 + (Z.of_nat k * (calc_every * rate_ecg) + window_length * rate_acc) * dt.
Proof.
  intros Hgrid He Ha Hce Hwl H k t v Hk.
  apply rr_windows_inv in H as (re & ra & starts & He' & Ha' & Hs & H).
  rewrite He in He'. rewrite Ha in Ha'. simplify_eq.
  destruct (for_each_lookup _ _ _ H k _ Hk) as (i & Hi & Hrow).
  apply (py_range_lookup _ _ _ _ _ _ Hs) in Hi.
  unfold rr_window in Hrow; cbv zeta in Hrow.
  apply bind_Ok in Hrow as (med & _ & Hrow).
  apply bind_Ok in Hrow as (s & _ & Hrow).
  apply bind_Ok in Hrow as (t' & Ht & Hrow). inversion Hrow; subst t' v.
  apply py_index_nonneg_lookup in Ht; [|nia].
  apply Hgrid in Ht. rewrite Ht. rewrite Z2Nat.id by nia. subst i. lia.
Qed.

(** *** Beats of one window (lines 118-122) *)

Lemma ltb_asym (x y : float) : (x <? y)%float = true -> (y <? x)%float = false.
Proof. intros H. now apply leb_not_ltb, ltb_leb. Qed.

(** A crossing at [j] leaves the next sample above the threshold, so
    there is none at [j + 1]. *)
Lemma upward_crossing_not_next (ecg_sample : list float) (thresh : float) (j : nat) :
  upward_crossing ecg_sample thresh j = true ->
  upward_crossing ecg_sample thresh (S j) = false.
Proof.
  unfold upward_crossing.
  destruct (ecg_sample !! j) as [v|]; [|discriminate].
  destruct (ecg_sample !! S j) as [w|]; [|discriminate].
  intros [_ Hw]%andb_true_iff.
  destruct (ecg_sample !! S (S j)); [|reflexivity].
  now rewrite (ltb_asym _ _ Hw).
Qed.

Lemma filter_seq_head (keep : nat -> bool) (start n b : nat) (l : list nat) :
  List.filter keep (seq start n) = b :: l -> (start <= b)%nat /\ keep b = true.
Proof.
  intros H.
  assert (In b (List.filter keep (seq start n))) as Hb by (rewrite H; now left).
  apply filter_In in Hb as [Hb%in_seq Hk]. split; [lia | exact Hk].
Qed.

Lemma filter_seq_gap (keep : nat -> bool) (start n : nat) :
  (forall j, keep j = true -> keep (S j) = false) ->
  forall k a b,
    List.filter keep (seq start n) !! k = Some a ->
    List.filter keep (seq start n) !! S k = Some b ->
    (a + 2 <= b)%nat.
Proof.
  intros Hgap. revert start; induction n as [|n IH]; intros start k a b Ha Hb.
  - discriminate.
  - cbn [seq List.filter] in Ha, Hb. destruct (keep start) eqn:Hs.
    + destruct k as [|k].
      * cbn in Ha. simplify_eq.
        destruct (List.filter keep (seq (S a) n)) as [|b' l] eqn:E; [discriminate|].
        cbn in Hb. simplify_eq.
        destruct (filter_seq_head _ _ _ _ _ E) as [Hle Hkb].
        destruct (decide (b = S a)) as [-> | Hne]; [|lia].
        rewrite (Hgap _ Hs) in Hkb. discriminate.
      * exact (IH _ _ _ _ Ha Hb).
    + exact (IH _ _ _ _ Ha Hb).
Qed.

Lemma np_diff_int_lookup (a : list Z) (k : nat) (d : Z) :
  np_diff_int a !! k = Some d ->
  exists x y, a !! k = Some x /\ a !! S k = Some y /\ d = y - x.
Proof.
  revert k; induction a as [|x a IH]; intros k H; [discriminate|].
  destruct a as [|y a]; [discriminate|].
  change (np_diff_int (x :: y :: a)) with ((y - x) :: np_diff_int (y :: a)) in H.
  destruct k as [|k].
  - cbn in H. simplify_eq. now exists x, y.
  - cbn in H. destruct (IH _ H) as (x' & y' & Hx & Hy & ->). now exists x', y'.
Qed.

(** X1: The beats of a window come in increasing order and never at two
    neighbouring indices: every beat is a valid pair index, and every
    difference that goes into the mean interval is at least 2 samples, so
    no interval is zero or negative. *)
Theorem beats_at_least_two_apart (ecg_sample : list float) (thresh : float) :
  (forall j, In j (window_beats ecg_sample thresh) -> 0 <= j /\ j + 1 < len ecg_sample)
  /\ (forall k a b,
        window_beats ecg_sample thresh !! k = Some a ->
        window_beats ecg_sample thresh !! S k = Some b ->
        a + 2 <= b)
  /\ (forall d, In d (np_diff_int (window_beats ecg_sample thresh)) -> 2 <= d).
Proof.
  assert (forall k a b,
             window_beats ecg_sample thresh !! k = Some a ->
             window_beats ecg_sample thresh !! S k = Some b ->
             a + 2 <= b) as Hgap.
  { intros k a b Ha Hb. rewrite window_beats_filter, list_lookup_fmap in Ha, Hb.
    destruct (List.filter _ _ !! k) as [a'|] eqn:Ea; [|discriminate].
    destruct (List.filter _ _ !! S k) as [b'|] eqn:Eb; [|discriminate].
    cbn in Ha, Hb. simplify_eq.
    pose proof (filter_seq_gap _ _ _ (upward_crossing_not_next ecg_sample thresh)
                  _ _ _ Ea Eb). lia. }
  split; [|split; [exact Hgap|]].
  - intros j [Hj Hc]%window_beats_In. split; [exact Hj|].
    unfold upward_crossing in Hc.
    destruct (ecg_sample !! Z.to_nat j); [|discriminate].
    destruct (ecg_sample !! S (Z.to_nat j)) eqn:E; [|discriminate].
    apply lookup_lt_Some in E. unfold len. lia.
  - intros d [k Hk]%list_elem_of_In%list_elem_of_lookup_1.
    apply np_diff_int_lookup in Hk as (x & y & Hx & Hy & ->).
    pose proof (Hgap _ _ _ Hx Hy). lia.
Qed.

Lemma is_nan_true (x : float) : is_nan x = true -> Prim2SF x = S754_nan.
Proof.
  intros H. destruct (Prim2SF x) eqn:E; try reflexivity;
    assert (is_nan x = false) by (apply is_nan_false; congruence); congruence.
Qed.

Lemma ltb_nan (x y : float) :
  is_nan x = true -> (x <? y)%float = false /\ (y <? x)%float = false.
Proof.
  intros H%is_nan_true. rewrite !ltb_spec, H. unfold SFltb. split; [reflexivity|].
  now destruct (Prim2SF y).
Qed.

Lemma is_nan_mul_l (x y : float) : is_nan x = true -> is_nan (x * y) = true.
Proof.
  intros H%is_nan_true. destruct (is_nan (x * y)) eqn:E; [reflexivity|].
  apply is_nan_false in E. rewrite mul_spec, H in E. now cbn in E.
Qed.

Lemma filter_none {A : Type} (keep : A -> bool) (l : list A) :
  (forall x, keep x = false) -> List.filter keep l = [].
Proof.
  intros H. induction l as [|x l IH]; [reflexivity|]. cbn. now rewrite H.
Qed.

(** X2: When the percentile of a window is NaN, no beat is recorded in it:
    every comparison with the threshold is false. *)
Theorem nan_percentile_no_beats (ecg_sample : list float) (p : float) :
  np_percentile ecg_sample 99 = Ok p ->
  is_nan p = true ->
  detect_beats ecg_sample = Ok [].
Proof.
  intros Hp Hnan.
  unfold detect_beats, beat_threshold. rewrite Hp; cbn [mbind result_bind].
  rewrite window_beats_filter, filter_none; [reflexivity|].
  intros j. unfold upward_crossing.
  destruct (ecg_sample !! j) as [v|]; [|reflexivity].
  destruct (ecg_sample !! S j) as [w|]; [|reflexivity].
  destruct (ltb_nan (p * 0.75) v (is_nan_mul_l _ _ Hnan)) as [_ ->]. reflexivity.
Qed.

(** *** What [spectrum] needs and returns (lines 93-99) *)

Lemma float_of_Z_zero : float_of_Z 0 = 0%float.
Proof. reflexivity. Qed.

Lemma spectrum_inv (sig : list float) (sample_rate : Z)
    (r : list float * list float * float * float) :
  spectrum sig sample_rate = Ok r ->
  exists mag d freq k f1 top,
    np_fft_rfft sig = Ok mag
    /\ py_truediv 1 (float_of_Z sample_rate) = Ok d
    /\ np_rfftfreq (len sig) d = Ok freq
    /\ np_argmax (map np_absolute mag) = Ok k
    /\ py_index freq 1 = Ok f1
    /\ np_max (map np_absolute mag) = Ok top
    /\ r = (map (fun m => (np_absolute m / 1000)%float) mag, freq,
            (float_of_Z k * f1)%float, (top / 1000)%float).
Proof.
  unfold spectrum. intros H.
  apply bind_Ok in H as (mag & Hmag & H).
  apply bind_Ok in H as (d & Hd & H).
  apply bind_Ok in H as (freq & Hfreq & H).
  apply bind_Ok in H as (k & Hk & H).
  apply bind_Ok in H as (f1 & Hf1 & H).
  apply bind_Ok in H as (top & Htop & H).
  inversion H; subst r. now exists mag, d, freq, k, f1, top.
Qed.

Lemma spectrum_needs_at_least_two (sig : list float) (sample_rate : Z)
    (r : list float * list float * float * float) :
  spectrum sig sample_rate = Ok r -> 2 <= len sig.
Proof.
  intros H.
  apply spectrum_inv in H as (mag & d & fr & k & f1 & top & _ & _ & Hf & _ & Hf1 & _ & _).
  pose proof (np_rfftfreq_length _ _ _ Hf) as Hlen.
  apply py_index_nonneg_lookup in Hf1; [|lia].
  apply lookup_lt_Some in Hf1. change (Z.to_nat 1) with 1%nat in Hf1.
  assert (~ len sig < 2); [|lia]. intros Hlt.
  assert (len sig / 2 < 1) by (apply Z.div_lt_upper_bound; lia). lia.
Qed.

(** X11: [spectrum] returns a result only for a series of two samples or more
    and a non-zero sample rate: on a shorter series [freq] has a single
    entry and [freq[1]] raises; at rate 0 the division [1.0 / sample_rate]
    raises.  When it returns, there is one frequency per [n // 2 + 1]
    bin and one amplitude per FFT bin. *)
Theorem spectrum_needs_two_samples (sig : list float) (sample_rate : Z)
    (amp freq : list float) (peakf peakv : float) :
  spectrum sig sample_rate = Ok (amp, freq, peakf, peakv) ->
  2 <= len sig
  /\ sample_rate <> 0
  /\ length freq = Z.to_nat (len sig / 2 + 1)
  /\ exists mag, np_fft_rfft sig = Ok mag /\ length amp = length mag.
Proof.
  intros H.
  apply spectrum_inv in H as (mag & d & fr & k & f1 & top & Hm & Hd & Hf & _ & Hf1 & _ & E).
  inversion E; subst amp fr peakf peakv; clear E.
  pose proof (np_rfftfreq_length _ _ _ Hf) as Hlen.
  apply py_index_nonneg_lookup in Hf1; [|lia].
  apply lookup_lt_Some in Hf1. change (Z.to_nat 1) with 1%nat in Hf1.
  repeat split.
  - assert (~ len sig < 2); [|lia]. intros Hlt.
    assert (len sig / 2 < 1) by (apply Z.div_lt_upper_bound; lia). lia.
  - intros ->. unfold py_truediv in Hd. rewrite float_of_Z_zero in Hd.
    change (0 =? 0)%float with true in Hd. discriminate.
  - exact Hlen.
  - exists mag. split; [exact Hm|]. now rewrite length_map.
Qed.

Lemma is_nan_div_l (x y : float) : is_nan (x / y) = false -> is_nan x = false.
Proof.
  intros H. destruct (is_nan x) eqn:E; [|reflexivity].
  apply is_nan_true in E. apply is_nan_false in H. rewrite div_spec, E in H.
  now cbn in H.
Qed.

(** The value [np.max] keeps is the one [np.argmax] points at: both scans
    move on the same elements. *)
Lemma argmax_scan_tracks_max (a pre : list float) (mp : float) (best : nat) :
  (forall v, In v (pre ++ a) -> is_nan v = false) ->
  pre !! best = Some mp ->
  exists k : nat,
    argmax_scan a (len pre) mp (Z.of_nat best) = Z.of_nat k
    /\ (pre ++ a) !! k = Some (fold_left np_maximum a mp).
Proof.
  revert pre mp best; induction a as [|x a IH]; intros pre mp best Hnan Hb.
  - exists best. rewrite app_nil_r. auto.
  - assert (is_nan x = false) as Hx by (apply Hnan, in_or_app; right; now left).
    assert (is_nan mp = false) as Hmp
      by (apply Hnan, in_or_app; left; eapply list_elem_of_In, list_elem_of_lookup_2, Hb).
    cbn [argmax_scan fold_left]. unfold np_maximum at 2. rewrite Hx, Hmp, orb_false_r.
    replace (len pre + 1) with (len (pre ++ [x])) by apply len_app_one.
    replace (pre ++ x :: a) with ((pre ++ [x]) ++ a) in * by (now rewrite <- app_assoc).
    destruct (x <=? mp)%float.
    + apply IH; [assumption|].
      rewrite lookup_app_l; [assumption | now apply lookup_lt_Some in Hb].
    + change (len pre) with (Z.of_nat (length pre)).
      apply IH; [assumption|]. now rewrite lookup_app_r, Nat.sub_diag.
Qed.

(** X12: When no returned amplitude is NaN, the peak amplitude [spectrum]
    returns is the returned amplitude of the very bin whose index makes
    the peak frequency. *)
Theorem spectrum_peak_amplitude_at_peak_bin (sig : list float) (sample_rate : Z)
    (amp freq : list float) (peakf peakv : float) :
  spectrum sig sample_rate = Ok (amp, freq, peakf, peakv) ->
  (forall v, In v amp -> is_nan v = false) ->
  exists (k : nat) (f1 : float),
    freq !! 1%nat = Some f1
    /\ peakf = (float_of_Z (Z.of_nat k) * f1)%float
    /\ amp !! k = Some peakv.
Proof.
  intros H Hnan.
  apply spectrum_inv in H as (mag & d & fr & k & f1 & top & _ & _ & _ & Hk & Hf1 & Htop & E).
  inversion E; subst amp fr peakf peakv; clear E.
  apply py_index_nonneg_lookup in Hf1; [|lia]. change (Z.to_nat 1) with 1%nat in Hf1.
  destruct (map np_absolute mag) as [|x a] eqn:Ea; [discriminate|].
  assert (forall v, In v (x :: a) -> is_nan v = false) as Hnan'.
  { intros v Hv. rewrite <- Ea in Hv. apply in_map_iff in Hv as (m & <- & Hm).
    apply is_nan_div_l with (y := 1000%float). apply Hnan.
    apply in_map_iff. now exists m. }
  cbn [np_argmax np_max] in Hk, Htop.
  rewrite (Hnan' x) in Hk by now left.
  destruct (argmax_scan_tracks_max a [x] x 0 Hnan' eq_refl) as (k' & Hk' & Hv).
  change (len [x]) with 1 in Hk'. change (Z.of_nat 0) with 0 in Hk'.
  rewrite Hk' in Hk. inversion Hk; subst k. inversion Htop; subst top.
  exists k', f1. split; [exact Hf1|]. split; [reflexivity|].
  change ([x] ++ a) with (x :: a) in Hv. rewrite <- Ea in Hv.
  rewrite list_lookup_fmap in Hv |- *.
  destruct (mag !! k') as [m|]; [|discriminate]. cbn in Hv |- *.
  inversion Hv as [Hm]. now rewrite Hm.
Qed.

(** X10: A respiratory-rate window of fewer than two samples cannot be
    analysed: once there is a window to process, [rr_windows] fails. *)
Theorem rr_windows_short_window (index : list Z) (acc_tot : list float)
    (sample_rate : gmap string Z) (rate_ecg rate_acc window_length calc_every : Z) :
  sample_rate !! "ECG" = Some rate_ecg ->
  sample_rate !! "Accelerometer_X" = Some rate_acc ->
  0 < rate_ecg * calc_every ->
  0 <= window_length * rate_acc < 2 ->
  window_length * rate_acc < len acc_tot ->
  forall rows, rr_windows index acc_tot sample_rate window_length calc_every <> Ok rows.
Proof.
  intros He Ha Hstep Hwin Hlen rows H.
  apply rr_windows_inv in H as (re & ra & starts & He' & Ha' & Hs & H).
  rewrite He in He'. rewrite Ha in Ha'. simplify_eq.
  assert (In 0 starts) as H0.
  { apply (py_range_positive_step _ _ _ _ 0 Hstep Hs). exists 0. lia. }
  apply list_elem_of_In, list_elem_of_lookup_1 in H0 as [k Hk].
  assert (is_Some (rows !! k)) as [row Hrow].
  { apply lookup_lt_is_Some. rewrite (for_each_length _ _ _ H).
    now apply lookup_lt_Some in Hk. }
  destruct (for_each_lookup _ _ _ H k _ Hrow) as (i & Hi & Hw).
  rewrite Hk in Hi. inversion Hi; subst i.
  unfold rr_window in Hw; cbv zeta in Hw.
  apply bind_Ok in Hw as (med & _ & Hw).
  apply bind_Ok in Hw as ([[[amp freq] peakf] peakv] & Hspec & _).
  apply spectrum_needs_at_least_two in Hspec.
  unfold len in Hspec. rewrite length_map in Hspec.
  rewrite (py_slice_full acc_tot 0 (window_length * ra)) in Hspec by lia. lia.
Qed.

(** *** The classifier on raw rows (lines 150-181) *)

Lemma is_nan_abs (x : float) : is_nan (abs x) = is_nan x.
Proof.
  destruct (is_nan x) eqn:H.
  - apply is_nan_true in H. destruct (is_nan (abs x)) eqn:H'; [reflexivity|].
    apply is_nan_false in H'. now rewrite abs_spec, H in H'.
  - apply is_nan_false. apply is_nan_false in H. rewrite abs_spec.
    now destruct (Prim2SF x).
Qed.

Lemma np_clip_nan (x lo hi : float) : is_nan x = true -> np_clip x lo hi = x.
Proof. intros H. unfold np_clip; cbv zeta. now rewrite !H. Qed.

Lemma classify_position (x y z : float) :
  exists p,
    p <> LEFT_SIDE /\ p <> RIGHT_SIDE
    /\ position_of (classify x y z)
       = (if (0.5 <? abs y)%float
          then if (y <? 0)%float then LEFT_SIDE else RIGHT_SIDE
          else p)
    /\ ((0.5 <? abs y)%float = true -> tilt_of (classify x y z) = nan).
Proof.
  unfold classify, position_of, tilt_of; cbv zeta.
  destruct (0.5 <? abs y)%float; cbn [fst snd].
  - exists TILT. repeat split; discriminate.
  - exists (if (x <? z)%float && (y <? z)%float then PRONE
            else if (z <? -0.966)%float then SUPINE
            else if (0.966 <? x)%float then UPRIGHT
            else TILT).
    split; [|split; [|split; [reflexivity | discriminate]]];
      destruct ((x <? z)%float && (y <? z)%float); try discriminate;
      destruct (z <? -0.966)%float; try discriminate;
      destruct (0.966 <? x)%float; discriminate.
Qed.

(** X17: A row that is NaN on all three axes (a second without samples, after
    the resampling of [main]) is given the position TILT. *)
Theorem missing_sample_is_tilt (row : acc_row) :
  is_nan (Accelerometer_X row) = true ->
  is_nan (Accelerometer_Y row) = true ->
  is_nan (Accelerometer_Z row) = true ->
  position_of (classify_row row) = TILT
  /\ Pos_value (position_of (classify_row row)) = 2.
Proof.
  intros Hx Hy Hz.
  assert (position_of (classify_row row) = TILT) as H; [|now rewrite H].
  unfold classify_row, clip_sample, classify, position_of; cbv zeta.
  rewrite !np_clip_nan by assumption.
  destruct (ltb_nan (abs (Accelerometer_Y row)) 0.5) as [_ ->];
    [now rewrite is_nan_abs|].
  destruct (ltb_nan (Accelerometer_Z row) (Accelerometer_X row) Hz) as [_ ->].
  destruct (ltb_nan (Accelerometer_Z row) (-0.966) Hz) as [-> _].
  destruct (ltb_nan (Accelerometer_X row) 0.966 Hx) as [_ ->].
  reflexivity.
Qed.

Lemma leb_is_nan (x y : float) :
  (x <=? y)%float = true -> is_nan x = false /\ is_nan y = false.
Proof.
  intros H. rewrite leb_spec in H. unfold SFleb in H.
  split; apply is_nan_false; intros Hn; rewrite Hn in H;
    [|destruct (Prim2SF x)]; discriminate.
Qed.

Lemma sf_rank_finite_inj (v : spec_float) (s : bool) (m : positive) (e : Z) :
  v <> S754_nan -> sf_rank v = sf_rank (S754_finite s m e) -> v = S754_finite s m e.
Proof.
  intros Hv. destruct v as [[]|[]| |[] m' e'], s; cbn; intros H;
    try congruence; try discriminate; inversion H; f_equal; lia.
Qed.

(** Two non-NaN values with [x <= y] and not [x < y] are the same value
    when [y] is finite and not zero. *)
Lemma leb_not_ltb_eq (x y : float) (s : bool) (m : positive) (e : Z) :
  Prim2SF y = S754_finite s m e ->
  ((x <=? y)%float = true /\ (x <? y)%float = false
   \/ (y <=? x)%float = true /\ (y <? x)%float = false) ->
  x = y.
Proof.
  intros Hy H.
  assert (is_nan x = false /\ is_nan y = false) as [Nx Ny]
    by (destruct H as [[H _] | [H _]]; apply leb_is_nan in H as [? ?]; now split).
  assert (frank x = frank y) as E.
  { destruct H as [[Hle Hlt] | [Hle Hlt]].
    - apply (leb_rank _ _ Nx Ny) in Hle as [Hle | Hle]; [|exact Hle].
      apply (ltb_rank _ _ Nx Ny) in Hle. congruence.
    - apply (leb_rank _ _ Ny Nx) in Hle as [Hle | Hle]; [|now symmetry].
      apply (ltb_rank _ _ Ny Nx) in Hle. congruence. }
  apply Prim2SF_inj. rewrite Hy. apply sf_rank_finite_inj.
  - now apply is_nan_false.
  - unfold frank in E. now rewrite Hy in E.
Qed.

Lemma np_clip_id (x : float) : in_domain x = true -> np_clip x (-1) 1 = x.
Proof.
  unfold in_domain. intros [Hlo Hhi]%andb_true_iff.
  destruct (leb_is_nan _ _ Hlo) as [_ Nx].
  unfold np_clip; cbv zeta. rewrite Nx.
  destruct (-1 <? x)%float eqn:Llo.
  - rewrite Nx. destruct (x <? 1)%float eqn:Lhi; [reflexivity|].
    symmetry. eapply leb_not_ltb_eq; [reflexivity | left; now split].
  - change (is_nan (-1)) with false. change (-1 <? 1)%float with true. cbn match.
    symmetry. eapply leb_not_ltb_eq; [reflexivity | right; now split].
Qed.

(** [np.clip] to [-1, 1] is the clipping of the specification: -1 for a
    reading below -1, 1 for a reading above 1, the reading itself
    otherwise (a NaN included). *)
Lemma np_clip_clamp (v : float) : np_clip v (-1) 1 = spec_clip_to_unit v.
Proof.
  unfold spec_clip_to_unit. destruct (is_nan v) eqn:Nv.
  - rewrite (np_clip_nan _ _ _ Nv).
    destruct (ltb_nan v (-1) Nv) as [-> _]. destruct (ltb_nan v 1 Nv) as [_ ->].
    reflexivity.
  - destruct (v <? -1)%float eqn:E1.
    + unfold np_clip; cbv zeta. rewrite Nv, (ltb_asym _ _ E1). reflexivity.
    + assert ((-1 <=? v)%float = true) as Hlo.
      { destruct (-1 <=? v)%float eqn:E; [reflexivity|].
        apply leb_false_ltb in E; [congruence | reflexivity | assumption]. }
      destruct (1 <? v)%float eqn:E2.
      * unfold np_clip; cbv zeta.
        rewrite Nv, (leb_ltb_trans (-1) 1 v eq_refl eq_refl Nv eq_refl E2).
        rewrite Nv, (ltb_asym _ _ E2). reflexivity.
      * apply np_clip_id. unfold in_domain. rewrite Hlo. cbn [andb].
        destruct (v <=? 1)%float eqn:E; [reflexivity|].
        apply leb_false_ltb in E; [congruence | assumption | reflexivity].
Qed.

(** X18: On a row whose three readings already lie in [-1, 1], the clipping
    changes nothing: the row is classified as the sample of its raw
    readings. *)
Theorem classify_row_in_range (row : acc_row) :
  in_domain (Accelerometer_X row) = true ->
  in_domain (Accelerometer_Y row) = true ->
  in_domain (Accelerometer_Z row) = true ->
  clip_sample row = (Accelerometer_X row, Accelerometer_Y row, Accelerometer_Z row)
  /\ classify_row row
     = classify (Accelerometer_X row) (Accelerometer_Y row) (Accelerometer_Z row).
Proof.
  intros Hx Hy Hz. unfold classify_row, clip_sample.
  now rewrite !np_clip_id by assumption.
Qed.

Lemma ltb_rank_false (x y : float) :
  is_nan x = false -> is_nan y = false ->
  ((x <? y)%float = false <-> ~ rank_lt (frank x) (frank y)).
Proof.
  intros Hx Hy. rewrite <- (ltb_rank _ _ Hx Hy). now destruct (x <? y)%float.
Qed.

Lemma frank_abs (x : float) :
  frank (abs x)
  = if (frank x).1.1 <? 0
    then (- (frank x).1.1, - (frank x).1.2, - (frank x).2)
    else frank x.
Proof.
  unfold frank. rewrite abs_spec.
  destruct (Prim2SF x) as [[]|[]| |[] m e]; cbn [SFabs sf_rank fst snd];
    rewrite ?Z.opp_involutive; reflexivity.
Qed.

Ltac float_side := first [assumption | reflexivity | now rewrite is_nan_abs].

Ltac float_cases :=
  repeat match goal with
         | |- context [(?a <? ?b)%float] =>
             let E := fresh "E" in
             destruct (a <? b)%float eqn:E;
             [apply ltb_rank in E; [| float_side ..]
             |apply ltb_rank_false in E; [| float_side ..]]
         end.

Lemma np_clip_cases (y : float) :
  is_nan y = false ->
  (np_clip y (-1) 1 = y /\ (-1 <? y)%float = true /\ (y <? 1)%float = true)
  \/ (np_clip y (-1) 1 = 1%float /\ (y <? 1)%float = false)
  \/ (np_clip y (-1) 1 = (-1)%float /\ (-1 <? y)%float = false).
Proof.
  intros Ny. unfold np_clip; cbv zeta. rewrite Ny.
  destruct (-1 <? y)%float.
  - rewrite Ny. destruct (y <? 1)%float; auto.
  - right. right. now split.
Qed.

Ltac rank_consts :=
  change (frank 0.5) with (1, -53, 4503599627370496) in *;
  change (frank (-0.5)) with (-1, 53, -4503599627370496) in *;
  change (frank 0) with (0, 0, 0) in *;
  change (frank 1) with (1, -52, 4503599627370496) in *;
  change (frank (-1)) with (-1, 52, -4503599627370496) in *.

Ltac rank_solve y :=
  rewrite ?frank_abs in *; rank_consts;
  destruct (frank y) as [[? ?] ?]; unfold rank_lt in *; cbn [fst snd] in *;
  repeat match goal with
         | H : context [?a <? 0] |- _ => destruct (Z.ltb_spec a 0); cbn [fst snd] in H
         end;
  lia.

(** Whether the magnitude of [y] exceeds one half, split by the sign of
    [y]. *)
Lemma abs_above_half (y : float) :
  is_nan y = false ->
  ((0.5 <? abs y)%float && (y <? 0)%float = (y <? -0.5)%float)
  /\ ((0.5 <? abs y)%float && negb (y <? 0)%float = (0.5 <? y)%float).
Proof.
  intros Ny. split; float_cases; cbn; try reflexivity; exfalso; rank_solve y.
Qed.

(** Clipping to [-1, 1] does not move a reading across -0.5 or 0.5. *)
Lemma np_clip_keeps_half (y : float) :
  is_nan y = false ->
  (np_clip y (-1) 1 <? -0.5)%float = (y <? -0.5)%float
  /\ (0.5 <? np_clip y (-1) 1)%float = (0.5 <? y)%float.
Proof.
  intros Ny.
  destruct (np_clip_cases y Ny) as [(-> & _) | [(-> & H) | (-> & H)]];
    [now split | |];
    (apply ltb_rank_false in H; [| float_side ..]);
    (change (1 <? -0.5)%float with false; change (0.5 <? 1)%float with true)
    || (change (-1 <? -0.5)%float with true; change (0.5 <? -1)%float with false);
    split; float_cases; try reflexivity; exfalso; rank_solve y.
Qed.

(** X19: A row is LEFT_SIDE exactly when its raw [y] reading is below -0.5 and
    RIGHT_SIDE exactly when it is above 0.5, whatever the other two
    readings are. *)
Theorem side_position_by_raw_reading (row : acc_row) :
  is_nan (Accelerometer_Y row) = false ->
  (position_of (classify_row row) = LEFT_SIDE
   <-> (Accelerometer_Y row <? -0.5)%float = true)
  /\ (position_of (classify_row row) = RIGHT_SIDE
      <-> (0.5 <? Accelerometer_Y row)%float = true).
Proof.
  intros Ny. unfold classify_row, clip_sample.
  destruct (np_clip_keeps_half _ Ny) as [<- <-].
  assert (is_nan (np_clip (Accelerometer_Y row) (-1) 1) = false) as Nc.
  { now destruct (np_clip_cases _ Ny) as [(-> & _) | [(-> & _) | (-> & _)]]. }
  destruct (abs_above_half _ Nc) as [<- <-].
  destruct (classify_position (np_clip (Accelerometer_X row) (-1) 1)
              (np_clip (Accelerometer_Y row) (-1) 1)
              (np_clip (Accelerometer_Z row) (-1) 1)) as (p & Hl & Hr & -> & _).
  destruct (0.5 <? abs _)%float, (_ <? 0)%float; cbn;
    split; split; intros H; congruence.
Qed.

(** *** The lists returned by [body_pos_and_angles] *)

Lemma Pos_value_inj (p q : Pos) : Pos_value p = Pos_value q -> p = q.
Proof. destruct p, q; cbn; intros H; (reflexivity || discriminate). Qed.

(** X20: The five lists have one entry per row, in the order of the rows; the
    name at a place is the name of the position whose index stands at that
    place; and wherever the index is 4 or 5 (LEFT_SIDE, RIGHT_SIDE) the
    tilt at that place is NaN. *)
Theorem body_pos_lists_aligned (acc : list acc_row) :
  let out := body_pos_and_angles acc in
  out_time out = map time acc
  /\ length (out_pos out) = length acc
  /\ length (out_pos_name out) = length acc
  /\ length (out_thetas out) = length acc
  /\ length (out_phis out) = length acc
  /\ (forall k p,
         out_pos out !! k = Some (Pos_value p) ->
         out_pos_name out !! k = Some (Pos_name p))
  /\ (forall k v,
         out_pos out !! k = Some v -> (v = 4 \/ v = 5) ->
         out_thetas out !! k = Some nan).
Proof.
  intros out. subst out. unfold body_pos_and_angles. rewrite body_pos_fold.
  cbn [out_time out_pos out_pos_name out_thetas out_phis app].
  rewrite !length_map. do 5 (split; [reflexivity|]). split.
  - intros k p. rewrite !list_lookup_fmap.
    destruct (acc !! k) as [row|]; [|discriminate]. cbn -[classify_row].
    intros H. inversion H as [Hp]. apply Pos_value_inj in Hp. now rewrite Hp.
  - intros k v. rewrite !list_lookup_fmap.
    destruct (acc !! k) as [row|]; [|discriminate]. cbn -[classify_row].
    intros H Hv. inversion H as [Hp]. f_equal.
    unfold classify_row in *. destruct (clip_sample row) as [[x y] z].
    destruct (classify_position x y z) as (p & Hl & Hr & Hpos & Htilt).
    apply Htilt. rewrite Hpos in Hp.
    destruct (0.5 <? abs y)%float; [reflexivity|].
    destruct p; cbn in Hp; try contradiction; lia.
Qed.

(** *** Bandpass filter (lines 77-90) *)

Lemma ltb_is_nan (x y : float) :
  (x <? y)%float = true -> is_nan x = false /\ is_nan y = false.
Proof. intros H%ltb_leb. now apply leb_is_nan. Qed.

Lemma ltb_trans (x y z : float) :
  (x <? y)%float = true -> (y <? z)%float = true -> (x <? z)%float = true.
Proof.
  intros H1 H2. destruct (ltb_is_nan _ _ H1) as [Nx Ny].
  destruct (ltb_is_nan _ _ H2) as [_ Nz].
  exact (leb_ltb_trans x y z Nx Ny Nz (ltb_leb _ _ H1) H2).
Qed.

Lemma ltb_not_leb (x y : float) : (x <? y)%float = true -> (y <=? x)%float = false.
Proof.
  intros H. destruct (y <=? x)%float eqn:E; [|reflexivity].
  apply leb_not_ltb in E. congruence.
Qed.

(** The library accepts a band exactly when [0 < low < high < 1]. *)
Lemma butter_band_accepted (low high : float) :
  butter_band_rejected low high = false
  <-> ((0 <? low) && (low <? high) && (high <? 1))%float = true.
Proof.
  unfold butter_band_rejected. split.
  - intros H.
    apply orb_false_iff in H as [H H5]. apply orb_false_iff in H as [H H4].
    apply orb_false_iff in H as [H H3]. apply orb_false_iff in H as [H1 H2].
    apply negb_false_iff in H3. destruct (ltb_is_nan _ _ H3) as [Nl Nh].
    rewrite H3, (leb_false_ltb low 0 Nl eq_refl H1), (leb_false_ltb 1 high eq_refl Nh H5).
    reflexivity.
  - intros H. apply andb_true_iff in H as [H H3]. apply andb_true_iff in H as [H1 H2].
    rewrite (ltb_not_leb _ _ H1), (ltb_not_leb _ _ (ltb_trans _ _ _ H1 H2)), H2.
    rewrite (ltb_not_leb _ _ (ltb_trans _ _ _ H2 H3)), (ltb_not_leb _ _ H3).
    reflexivity.
Qed.

(** The cutoffs the specification calls invalid are rejected: the first
    not below the second, or one of them not below 1 (that is, for a
    normalised cutoff, at or above half the sample rate). *)
Lemma butter_band_invalid (low high : float) :
  (high <=? low)%float = true \/ (1 <=? low)%float = true \/ (1 <=? high)%float = true ->
  butter_band_rejected low high = true.
Proof.
  unfold butter_band_rejected. intros [H | [H | H]].
  - rewrite (leb_not_ltb _ _ H). cbn [negb]. now rewrite !orb_true_r.
  - rewrite H. now rewrite !orb_true_r.
  - rewrite H. now rewrite !orb_true_r.
Qed.

End Repose.

(* ===================================================================== *)
(** ** The classifier on raw samples                                      *)
(* ===================================================================== *)

Lemma np_clip_in_domain (x : float) :
  is_nan x = false -> in_domain (np_clip x (-1) 1) = true.
Proof.
  intros Hx. unfold np_clip; cbv zeta. rewrite Hx.
  destruct (-1 <? x)%float eqn:Hlo; [|reflexivity].
  rewrite Hx. destruct (x <? 1)%float eqn:Hhi; [|reflexivity].
  unfold in_domain. now rewrite (ltb_leb _ _ Hlo), (ltb_leb _ _ Hhi).
Qed.

Lemma in_domain_opp (a : float) : in_domain a = true -> in_domain (- a) = true.
Proof.
  unfold in_domain. intros [Hlo Hhi]%andb_true_iff.
  apply leb_opp in Hlo, Hhi. apply andb_true_iff. split; assumption.
Qed.

(** C9: the classifier is a total function: it gives every row one
    of the six positions, recorded by value (0 to 5) and by name, whatever
    the numbers in the row.  Each axis is clipped first: the sample that is
    classified holds, for each reading, -1 if the reading is below -1, 1 if
    it is above 1 and the reading itself otherwise.  On a row without NaN
    the three trigonometric calls, [arcsin(acc_x)], [arcsin(-acc_y)] and
    [arccos(-acc_z)], therefore get arguments of their domain; hence the
    result is the same for any two [arcsin] and any two [arccos] that agree
    on [-1, 1]. *)
Theorem classifier_total_and_in_domain (arcsin arccos arcsin' arccos' : float -> float) :
  (forall acc : list acc_row,
      let out := body_pos_and_angles arcsin arccos acc in
      length (out_pos out) = length acc
      /\ length (out_pos_name out) = length acc
      /\ forall k row,
          acc !! k = Some row ->
          exists p : Pos,
            p = position_of (classify_row arcsin arccos row)
            /\ out_pos out !! k = Some (Pos_value p)
            /\ out_pos_name out !! k = Some (Pos_name p)
            /\ 0 <= Pos_value p <= 5)
  /\ (forall row : acc_row,
        is_nan (Accelerometer_X row) = false ->
        is_nan (Accelerometer_Y row) = false ->
        is_nan (Accelerometer_Z row) = false ->
        in_domain (clip_sample row).1.1 = true
        /\ in_domain (- (clip_sample row).1.2) = true
        /\ in_domain (- (clip_sample row).2) = true
        /\ ((forall a, in_domain a = true -> arcsin a = arcsin' a) ->
            (forall a, in_domain a = true -> arccos a = arccos' a) ->
            classify_row arcsin arccos row = classify_row arcsin' arccos' row))
  /\ (forall row : acc_row,
        clip_sample row
        = (spec_clip_to_unit (Accelerometer_X row),
           spec_clip_to_unit (Accelerometer_Y row),
           spec_clip_to_unit (Accelerometer_Z row))
        /\ classify_row arcsin arccos row
           = classify arcsin arccos
               (spec_clip_to_unit (Accelerometer_X row))
               (spec_clip_to_unit (Accelerometer_Y row))
               (spec_clip_to_unit (Accelerometer_Z row))).
Proof.
  split; [|split].
  - intros acc out. subst out. unfold body_pos_and_angles.
    rewrite body_pos_fold. cbn [out_pos out_pos_name app].
    rewrite !length_map. do 2 (split; [reflexivity|]).
    intros k row Hk. exists (position_of (classify_row arcsin arccos row)).
    split; [reflexivity|]. rewrite !list_lookup_fmap, Hk. cbn.
    do 2 (split; [reflexivity|]).
    destruct (position_of _); cbn; lia.
  - intros row Hx Hy Hz. unfold clip_sample; cbn [fst snd].
    pose proof (np_clip_in_domain _ Hx) as Dx.
    pose proof (in_domain_opp _ (np_clip_in_domain _ Hy)) as Dy.
    pose proof (in_domain_opp _ (np_clip_in_domain _ Hz)) as Dz.
    do 3 (split; [assumption|]).
    intros Hasin Hacos. unfold classify_row, clip_sample, classify; cbv zeta.
    now rewrite (Hasin _ Dx), (Hasin _ Dy), (Hacos _ Dz).
  - intros row. unfold classify_row, clip_sample.
    rewrite !np_clip_clamp. now split.
Qed.

(* ===================================================================== *)
(** ** The program on concrete recordings                                 *)
(* ===================================================================== *)

(** C1, run: in the window 0 0 4 0 0 4 0 0 the 99th percentile is 4, the
    threshold 3, and the beats found are the crossings at 1 and 4. *)
Lemma beats_are_strict_upward_crossings_witness :
  Sample.percentile [0; 0; 4; 0; 0; 4; 0; 0]%float 99 = Ok 4%float
  /\ exists beats : list Z,
      detect_beats Sample.percentile [0; 0; 4; 0; 0; 4; 0; 0]%float = Ok beats
      /\ forall j : Z,
          In j beats
          <-> 0 <= j
              /\ exists v w : float,
                  [0; 0; 4; 0; 0; 4; 0; 0]%float !! Z.to_nat j = Some v
                  /\ [0; 0; 4; 0; 0; 4; 0; 0]%float !! S (Z.to_nat j) = Some w
                  /\ (v <? 4 * 0.75)%float = true
                  /\ (4 * 0.75 <? w)%float = true.
Proof.
  split; [reflexivity|].
  apply (beats_are_strict_upward_crossings Sample.percentile
           [0; 0; 4; 0; 0; 4; 0; 0]%float 4%float).
  reflexivity.
Defined.

(** C1, counterexample: a window of one sample at -1 followed by 99 zeros
    has the threshold 0; the pair (-1, 0) at index 0 crosses upward in the
    specification's sense, [value[0] < threshold <= value[1]], and the
    program records no beat. *)
Lemma crossing_ending_on_threshold_not_recorded :
  beat_threshold Sample.percentile ((-1)%float :: repeat 0%float 99) = Ok 0%float
  /\ spec_upward_crossing ((-1)%float :: repeat 0%float 99) 0%float 0 = true
  /\ detect_beats Sample.percentile ((-1)%float :: repeat 0%float 99) = Ok [].
Proof. repeat split; vm_compute; reflexivity. Qed.

(** C2, run: 102 ECG samples 10 ticks apart, a flat processed signal of
    101 samples, one-second windows every second: the only window starts
    at 0 and its row carries the timestamp at index 100. *)
Lemma hr_row_timestamp_witness :
  hr_windows Sample.percentile Sample.mean
    (map (fun k => Z.of_nat k * 10) (seq 0 102)) (repeat 0%float 101)
    (<["ECG" := 100]> ∅) 1 1 = Ok [(1000, nan)]
  /\ py_index (map (fun k => Z.of_nat k * 10) (seq 0 102))
             (Z.of_nat 0 * (100 * 1) + 1 * 100) = Ok 1000
  /\ exists beats,
      detect_beats Sample.percentile
        (py_slice (repeat 0%float 101) (Z.of_nat 0 * (100 * 1))
                  (Z.of_nat 0 * (100 * 1) + 1 * 100)) = Ok beats
      /\ nan = hr_mean Sample.mean beats 100.
Proof.
  assert (hr_windows Sample.percentile Sample.mean
            (map (fun k => Z.of_nat k * 10) (seq 0 102)) (repeat 0%float 101)
            (<["ECG" := 100]> ∅) 1 1 = Ok [(1000, nan)]) as H
    by (vm_compute; reflexivity).
  split; [exact H|].
  exact (hr_row_timestamp_is_one_past_window Sample.percentile Sample.mean
           _ _ _ _ _ _ H 0%nat 1000 nan eq_refl).
Defined.

(** C2, counterexample: on that recording the window covers the processed
    indices 0 to 99, whose last sample has the timestamp 990; the row
    carries 1000. *)
Lemma hr_row_timestamp_not_last_sample :
  hr_windows Sample.percentile Sample.mean
    (map (fun k => Z.of_nat k * 10) (seq 0 102)) (repeat 0%float 101)
    (<["ECG" := 100]> ∅) 1 1 = Ok [(1000, nan)]
  /\ py_index (map (fun k => Z.of_nat k * 10) (seq 0 102)) (spec_window_last 0 (1 * 100))
     = Ok 990.
Proof. split; vm_compute; reflexivity. Qed.

(** C3, run: the two-sample series 3, 1 at 2 Hz. *)
Lemma spectrum_peak_over_all_bins_witness :
  Sample.rfft [3; 1]%float = Ok [(4, 0); (2, 0)]%float
  /\ exists (k : Z) (f1 top : float),
      np_argmax (map Sample.cabs [(4, 0); (2, 0)]%float) = Ok k
      /\ [0; 1]%float !! 1%nat = Some f1
      /\ np_max (map Sample.cabs [(4, 0); (2, 0)]%float) = Ok top
      /\ spectrum Sample.rfft Sample.cabs [3; 1]%float 2
         = Ok (map (fun m => (Sample.cabs m / 1000)%float) [(4, 0); (2, 0)]%float,
               [0; 1]%float, (float_of_Z k * f1)%float, (top / 1000)%float)
      /\ ((forall m, In m [(4, 0); (2, 0)]%float -> is_nan (Sample.cabs m) = false) ->
          0 <= k
          /\ exists v_k,
              map Sample.cabs [(4, 0); (2, 0)]%float !! Z.to_nat k = Some v_k
              /\ (forall j v, map Sample.cabs [(4, 0); (2, 0)]%float !! j = Some v ->
                              (v <=? v_k)%float = true)
              /\ (forall j v, map Sample.cabs [(4, 0); (2, 0)]%float !! j = Some v ->
                              (j < Z.to_nat k)%nat -> (v <? v_k)%float = true)).
Proof.
  split; [reflexivity|].
  apply (spectrum_peak_over_all_bins Sample.rfft Sample.cabs
           [3; 1]%float 2 [(4, 0); (2, 0)]%float 0.5%float [0; 1]%float);
    (reflexivity || discriminate || (vm_compute; discriminate)).
Defined.

(** C3, counterexample: for the series 3, 1 the magnitudes are 4 (DC) and
    2; the program reports bin 0, hence the peak frequency 0, where the
    search without the DC bin gives bin 1, hence 1 Hz.  And a series of one
    sample, though not empty, gets no result at all: [freq] has a single
    entry and [freq[1]] raises. *)
Lemma spectrum_peak_is_dc_bin :
  spectrum Sample.rfft Sample.cabs [3; 1]%float 2
  = Ok ([4 / 1000; 2 / 1000]%float, [0; 1]%float, 0%float, (4 / 1000)%float)
  /\ Sample.rfft [3; 1]%float = Ok [(4, 0); (2, 0)]%float
  /\ map Sample.cabs [(4, 0); (2, 0)]%float = [4; 2]%float
  /\ spec_peak_bin_excluding_dc [4; 2]%float = Ok 1
  /\ (float_of_Z 1 * 1 =? 0)%float = false
  /\ spectrum Sample.rfft Sample.cabs [3]%float 2 = Raise IndexError.
Proof. repeat split; vm_compute; reflexivity. Qed.


(** C4, run: in the window 0 0 4 0 0 4 0 0 the beats 1 and 4 are 3
    samples apart, 0.03 s at 100 Hz, and the heart rate is 60 / 0.03 =
    2000; a flat window has no beat and its heart rate is NaN. *)
Lemma hr_window_value_witness :
  Sample.mean [] = nan
  /\ detect_beats Sample.percentile
       (py_slice [0; 0; 4; 0; 0; 4; 0; 0; 0]%float 0 (0 + 8)) = Ok [1; 4]
  /\ py_index [0; 10; 20; 30; 40; 50; 60; 70; 80; 90] (0 + 8) = Ok 80
  /\ hr_window Sample.percentile Sample.mean [0; 10; 20; 30; 40; 50; 60; 70; 80; 90]
       [0; 0; 4; 0; 0; 4; 0; 0; 0]%float 100 8 0 = Ok (80, 2000%float)
  /\ hr_window Sample.percentile Sample.mean [0; 10; 20; 30; 40; 50; 60; 70; 80; 90]
       (repeat 0%float 9) 100 8 0 = Ok (80, nan).
Proof.
  assert (Sample.mean [] = nan) as Hmean by reflexivity.
  destruct (hr_window_value Sample.percentile Sample.mean
              [0; 10; 20; 30; 40; 50; 60; 70; 80; 90]
              [0; 0; 4; 0; 0; 4; 0; 0; 0]%float 100 8 0 [1; 4] 80
              Hmean eq_refl eq_refl) as (Hrow & _ & Hmany).
  destruct (hr_window_value Sample.percentile Sample.mean
              [0; 10; 20; 30; 40; 50; 60; 70; 80; 90]
              (repeat 0%float 9) 100 8 0 [] 80
              Hmean eq_refl eq_refl) as (Hflat & Hfew & _).
  do 3 (split; [reflexivity|]). split.
  - rewrite Hrow, Hmany by (simpl; lia). reflexivity.
  - rewrite Hflat, Hfew by (simpl; lia). reflexivity.
Defined.

(** C5, run: ten accelerometer samples, the dictionary holding 4 for the
    ECG and 2 for the accelerometer: two-second windows have 2 * 2 = 4
    samples and start 1 * 4 = 4 samples apart, at 0 and at 4. *)
Lemma rr_stride_counts_ecg_samples_witness :
  rr_windows Sample.rfft Sample.cabs Sample.median
    [0; 500; 1000; 1500; 2000; 2500; 3000; 3500; 4000; 4500]
    [1; 2; 1; 0; 1; 2; 1; 0; 1; 3]%float
    {["ECG" := 4; "Accelerometer_X" := 2]} 2 1
  = Ok [(2000, 30%float); (4000, 30%float)]
  /\ exists (rate_ecg rate_acc : Z) (starts : list Z),
      ({["ECG" := 4; "Accelerometer_X" := 2]} : gmap string Z) !! "ECG" = Some rate_ecg
      /\ ({["ECG" := 4; "Accelerometer_X" := 2]} : gmap string Z) !! "Accelerometer_X"
         = Some rate_acc
      /\ py_range 0 (len [1; 2; 1; 0; 1; 2; 1; 0; 1; 3]%float - 2 * rate_acc)
                  (rate_ecg * 1) = Ok starts
      /\ length [(2000, 30%float); (4000, 30%float)] = length starts
      /\ (forall (k : nat) (i : Z),
             starts !! k = Some i -> i = Z.of_nat k * (1 * rate_ecg))
      /\ forall (k : nat) (row : Z * float),
          [(2000, 30%float); (4000, 30%float)] !! k = Some row ->
          exists (med : float) (s : list float * list float * float * float),
            Sample.median
              (py_slice [1; 2; 1; 0; 1; 2; 1; 0; 1; 3]%float
                        (Z.of_nat k * (1 * rate_ecg))
                        (Z.of_nat k * (1 * rate_ecg) + 2 * rate_acc)) = Ok med
            /\ spectrum Sample.rfft Sample.cabs
                 (map (fun v => (v - med)%float)
                      (py_slice [1; 2; 1; 0; 1; 2; 1; 0; 1; 3]%float
                                (Z.of_nat k * (1 * rate_ecg))
                                (Z.of_nat k * (1 * rate_ecg) + 2 * rate_acc)))
                 rate_acc = Ok s
            /\ py_index [0; 500; 1000; 1500; 2000; 2500; 3000; 3500; 4000; 4500]
                        (Z.of_nat k * (1 * rate_ecg) + 2 * rate_acc) = Ok (fst row)
            /\ snd row = (snd (fst s) * 60)%float.
Proof.
  assert (rr_windows Sample.rfft Sample.cabs Sample.median
            [0; 500; 1000; 1500; 2000; 2500; 3000; 3500; 4000; 4500]
            [1; 2; 1; 0; 1; 2; 1; 0; 1; 3]%float
            {["ECG" := 4; "Accelerometer_X" := 2]} 2 1
          = Ok [(2000, 30%float); (4000, 30%float)]) as H
    by (vm_compute; reflexivity).
  split; [exact H|].
  exact (rr_stride_counts_ecg_samples Sample.rfft Sample.cabs Sample.median
           _ _ _ _ _ _ H).
Defined.

Lemma sample_lfilter_run_length (b a : list float) (a0 : float) (x z : list float) :
  length (Sample.lfilter_run b a a0 z x) = length x.
Proof.
  revert z; induction x as [|v x IH]; intros z; [reflexivity|].
  cbn [Sample.lfilter_run]. destruct (Sample.lfilter_step b a a0 z v) as [y z'].
  cbn [length]. now rewrite IH.
Qed.

Lemma sample_lfilter_length (b a x y : list float) :
  Sample.lfilter b a x = Ok y -> length y = length x.
Proof.
  unfold Sample.lfilter. destruct a as [|a0 a]; [discriminate|].
  intros H; inversion H. apply sample_lfilter_run_length.
Qed.

(* ===================================================================== *)
(** ** The bandpass filter                                                *)
(* ===================================================================== *)

(** C8 (as the code has it): the design divides both cutoffs by half
    the sample rate and hands them to the library, which makes the only
    check there is.  Given the contract of the library's design ([butter]
    raises [ValueError] on a band it rejects, and for any other band and a
    positive order returns coefficients with a leading denominator
    coefficient), and with [lfilter] the direct-form recurrence, the design
    - raises [ZeroDivisionError] when half the sample rate is zero;
    - raises [ValueError] when the normalised cutoffs are not
      [0 < low < high < 1]: in particular when the first is not below the
      second or one of them is 1 or more, and also when the first is 0
      or less;
    - returns coefficients otherwise, for a positive order, and filtering
      with them returns as many samples as it is given.
    In the first two cases filtering raises the same exception. *)
Theorem bandpass_design_checks_band
    (signal_butter : Z -> float -> float -> result (list float * list float))
    (lowcut highcut fs : float) (order : Z) :
  (forall n low high,
      butter_band_rejected low high = true -> signal_butter n low high = Raise ValueError) ->
  (forall n low high,
      0 < n -> butter_band_rejected low high = false ->
      exists b a0 a, signal_butter n low high = Ok (b, a0 :: a)) ->
  let nyq := (0.5 * fs)%float in
  let low := (lowcut / nyq)%float in
  let high := (highcut / nyq)%float in
  ((nyq =? 0)%float = true ->
     butter_bandpass signal_butter lowcut highcut fs order = Raise ZeroDivisionError
     /\ forall data,
         butter_bandpass_filter signal_butter Sample.lfilter data lowcut highcut fs order
         = Raise ZeroDivisionError)
  /\ ((nyq =? 0)%float = false ->
      ((0 <? low) && (low <? high) && (high <? 1))%float = false
      \/ (high <=? low)%float = true
      \/ (1 <=? low)%float = true
      \/ (1 <=? high)%float = true
      \/ (low <=? 0)%float = true ->
      butter_bandpass signal_butter lowcut highcut fs order = Raise ValueError
      /\ forall data,
          butter_bandpass_filter signal_butter Sample.lfilter data lowcut highcut fs order
          = Raise ValueError)
  /\ ((nyq =? 0)%float = false ->
      0 < order ->
      ((0 <? low) && (low <? high) && (high <? 1))%float = true ->
      exists b a,
        butter_bandpass signal_butter lowcut highcut fs order = Ok (b, a)
        /\ forall data,
            exists y,
              butter_bandpass_filter signal_butter Sample.lfilter data lowcut highcut fs order
              = Ok y
              /\ Sample.lfilter b a data = Ok y
              /\ length y = length data).
Proof.
  intros Hrej Hacc nyq low high.
  unfold butter_bandpass_filter, butter_bandpass, py_truediv; cbv zeta.
  fold nyq. fold low. fold high.
  split; [|split].
  - intros ->. now split.
  - intros -> Hbad. cbn [mbind result_bind].
    assert (butter_band_rejected low high = true) as Hr.
    { destruct Hbad as [H | [H | [H | [H | H]]]].
      - destruct (butter_band_rejected low high) eqn:E; [reflexivity|].
        apply butter_band_accepted in E. congruence.
      - apply butter_band_invalid; auto.
      - apply butter_band_invalid; auto.
      - apply butter_band_invalid; auto.
      - unfold butter_band_rejected. now rewrite H. }
    rewrite (Hrej order _ _ Hr). now split.
  - intros -> Hn Hok. cbn [mbind result_bind].
    apply butter_band_accepted in Hok.
    destruct (Hacc order _ _ Hn Hok) as (b & a0 & a & Hd).
    exists b, (a0 :: a). rewrite Hd. split; [reflexivity|].
    intros data. cbn [mbind result_bind fst snd]. unfold Sample.lfilter.
    eexists. split; [reflexivity|]. split; [reflexivity|].
    apply sample_lfilter_run_length.
Qed.

(** C8, run: at 100 Hz the cutoffs 3 and 33.3 Hz of [calculate_hr] are
    accepted, and filtering returns as many samples as it is given; the
    cutoffs 3 and 50 Hz (the second at half the sample rate) and the
    cutoffs 33.3 and 3 Hz (in the wrong order) raise [ValueError]. *)
Lemma bandpass_design_checks_band_witness :
  (exists b a,
      butter_bandpass Sample.checked_design 3 33.3 100 2 = Ok (b, a)
      /\ forall data,
          exists y,
            butter_bandpass_filter Sample.checked_design Sample.lfilter
              data 3 33.3 100 2 = Ok y
            /\ Sample.lfilter b a data = Ok y
            /\ length y = length data)
  /\ butter_bandpass Sample.checked_design 3 50 100 2 = Raise ValueError
  /\ butter_bandpass Sample.checked_design 33.3 3 100 2 = Raise ValueError.
Proof.
  assert (forall n low high,
             butter_band_rejected low high = true ->
             Sample.checked_design n low high = Raise ValueError) as Hrej
    by (intros n low high H; unfold Sample.checked_design; now rewrite H).
  assert (forall n low high,
             0 < n -> butter_band_rejected low high = false ->
             exists b a0 a, Sample.checked_design n low high = Ok (b, a0 :: a)) as Hacc
    by (intros n low high _ H; unfold Sample.checked_design; rewrite H;
        now exists [1%float], 1%float, []).
  destruct (bandpass_design_checks_band Sample.checked_design
              3 33.3 100 2 Hrej Hacc) as (_ & _ & Hok).
  destruct (bandpass_design_checks_band Sample.checked_design
              3 50 100 2 Hrej Hacc) as (_ & Hnyq & _).
  destruct (bandpass_design_checks_band Sample.checked_design
              33.3 3 100 2 Hrej Hacc) as (_ & Hord & _).
  split; [apply Hok; [reflexivity | lia | reflexivity]|]. split.
  - apply Hnyq; [reflexivity|]. right; right; right; left. reflexivity.
  - apply Hord; [reflexivity|]. right; left. reflexivity.
Defined.

(** C8, counterexample: cutoffs in the wrong order do make the design
    fail, with the library's [ValueError], which is no
    [ConfigurationError].  The cutoffs 0 and 10 Hz at 100 Hz are in order
    and both below half the sample rate, and the design raises
    [ValueError] all the same.  At a sample rate of 0 the exception is
    [ZeroDivisionError]. *)
Lemma bandpass_design_error_kinds :
  (butter_bandpass Sample.checked_design 33.3 3 100 2 = Raise ValueError
   /\ exn_name ValueError <> "ConfigurationError")
  /\ ((0 <? 10)%float = true
      /\ (0 <? 0.5 * 100)%float = true
      /\ (10 <? 0.5 * 100)%float = true
      /\ butter_bandpass Sample.checked_design 0 10 100 2 = Raise ValueError)
  /\ (butter_bandpass Sample.checked_design 3 33.3 0 2 = Raise ZeroDivisionError
      /\ exn_name ZeroDivisionError <> "ConfigurationError").
Proof. repeat split; (reflexivity || discriminate). Qed.

(** C9, run: the row (3.2, -7, 0.1) is clipped to (1, -1, 0.1); the
    classification is the same whether [arcsin] and [arccos] return NaN or
    0 outside [-1, 1]. *)
Lemma classifier_total_and_in_domain_witness :
  clip_sample (mk_acc_row 0 3.2 (-7) 0.1 0 0) = (1, -1, 0.1)%float
  /\ in_domain (clip_sample (mk_acc_row 0 3.2 (-7) 0.1 0 0)).1.1 = true
  /\ classify_row Sample.arcsin Sample.arccos (mk_acc_row 0 3.2 (-7) 0.1 0 0)
     = classify_row Sample.arcsin_zero_outside Sample.arccos_zero_outside
         (mk_acc_row 0 3.2 (-7) 0.1 0 0)
  /\ out_pos_name (body_pos_and_angles Sample.arcsin Sample.arccos
                     [mk_acc_row 0 3.2 (-7) 0.1 0 0]) !! 0%nat
     = Some "LEFT_SIDE".
Proof.
  destruct (classifier_total_and_in_domain Sample.arcsin Sample.arccos
              Sample.arcsin_zero_outside Sample.arccos_zero_outside)
    as (Hloop & Hrow & Hclip).
  destruct (Hrow (mk_acc_row 0 3.2 (-7) 0.1 0 0) eq_refl eq_refl eq_refl)
    as (Dx & _ & _ & Hsame).
  destruct (Hloop [mk_acc_row 0 3.2 (-7) 0.1 0 0]) as (_ & _ & Hlabel).
  destruct (Hlabel 0%nat _ eq_refl) as (p & Hp & _ & Hname & _).
  split; [exact (proj1 (Hclip (mk_acc_row 0 3.2 (-7) 0.1 0 0)))|].
  split; [exact Dx|]. split.
  - apply Hsame; intros a Ha;
      unfold Sample.arcsin_zero_outside, Sample.arccos_zero_outside; now rewrite Ha.
  - rewrite Hname, Hp. reflexivity.
Defined.

Lemma sample_arcsin_zero (a : float) :
  (a =? 0)%float = true -> (Sample.arcsin a =? 0)%float = true.
Proof. intros [-> | ->]%eqb_zero_cases; reflexivity. Qed.

(** C10, run: the sample (0.3, 0, 0.4). *)
Lemma rotation_zero_when_y_zero_witness :
  (forall a, (a =? 0)%float = true -> (Sample.arcsin a =? 0)%float = true)
  /\ (0 =? 0)%float = true
  /\ (0.3 <=? 0.71)%float = true
  /\ is_finite (Sample.arccos (- 0.4)) = true
  /\ (rotation_of (classify Sample.arcsin Sample.arccos 0.3 0 0.4) =? 0)%float = true
  /\ np_sign (Sample.arcsin (- 0)) = 0%float.
Proof.
  split; [exact sample_arcsin_zero|]. do 3 (split; [reflexivity|]).
  exact (rotation_zero_when_y_zero Sample.arcsin Sample.arccos 0.3 0 0.4
           sample_arcsin_zero eq_refl eq_refl eq_refl).
Defined.

(** The branch edges of the classifier: every comparison is strict, so a
    sample on a threshold falls on the "otherwise" side. *)
Example classify_on_thresholds :
  position_of (classify Sample.arcsin Sample.arccos 0 0.5 (-0.5)) = TILT
  /\ position_of (classify Sample.arcsin Sample.arccos 0 0.6 (-0.5)) = RIGHT_SIDE
  /\ position_of (classify Sample.arcsin Sample.arccos 0 (-0.6) (-0.5)) = LEFT_SIDE
  /\ position_of (classify Sample.arcsin Sample.arccos 0 0 (-0.966)) = TILT
  /\ position_of (classify Sample.arcsin Sample.arccos 0 0 (-0.97)) = SUPINE
  /\ position_of (classify Sample.arcsin Sample.arccos 0.966 0 (-0.1)) = TILT
  /\ position_of (classify Sample.arcsin Sample.arccos 0.97 0 (-0.1)) = UPRIGHT
  /\ position_of (classify Sample.arcsin Sample.arccos 0 0 0.2) = PRONE
  /\ is_nan (rotation_of (classify Sample.arcsin Sample.arccos 0.71 0.1 0)) = false
  /\ is_nan (rotation_of (classify Sample.arcsin Sample.arccos 0.72 0.1 0)) = true
  /\ is_nan (tilt_of (classify Sample.arcsin Sample.arccos 0 0.6 0)) = true.
Proof. repeat split; vm_compute; reflexivity. Qed.


(* ===================================================================== *)
(** ** Further runs                                                       *)
(* ===================================================================== *)

(** X23, run. *)
Lemma excel_filename_of_edf_witness :
  "rec01" <> EmptyString
  /\ begins_with_any ".EDF" "rec01" = false
  /\ is_edf_file ("rec01" +:+ ".edf") = true
  /\ excel_filename ("rec01" +:+ ".edf") = "rec01" +:+ ".edf.xlsx".
Proof.
  split; [discriminate|]. split; [reflexivity|].
  apply excel_filename_of_edf; [discriminate | reflexivity].
Defined.

(** X9, run. *)
Lemma calculate_rr_needs_both_rates_witness :
  (({["Accelerometer_X" := 25]} : gmap string Z) !! "Accelerometer_X" = None
   \/ ({["Accelerometer_X" := 25]} : gmap string Z) !! "ECG" = None)
  /\ calculate_rr Sample.rfft Sample.cabs Sample.median Sample.one_sample_per_bucket
       [mk_acc_row 0 0.1 0.2 0.9 1 1.2] {["Accelerometer_X" := 25]} 25 5
     = Raise KeyError.
Proof.
  split; [right; reflexivity|].
  apply calculate_rr_needs_both_rates. right. reflexivity.
Defined.

Lemma sample_insert_sorted_cons (x : float) (l : list float) :
  Sample.insert_sorted x l <> [].
Proof. destruct l as [|y l]; cbn; [|destruct (x <=? y)%float]; discriminate. Qed.

Lemma sample_percentile_defined (w : list float) (q : float) :
  w <> [] -> exists p, Sample.percentile w q = Ok p.
Proof.
  intros Hw. unfold Sample.percentile.
  cbv zeta. destruct (Sample.sort w) as [|x s] eqn:E;
    [|destruct (existsb is_nan w); eauto].
  destruct w as [|v w]; [congruence|].
  cbn in E. now apply sample_insert_sorted_cons in E.
Qed.

(** X3, run. *)
Lemma hr_windows_total_witness :
  exists rows,
    hr_windows Sample.percentile Sample.mean [0; 10; 20; 30; 40] [1; 5; 1; 5]%float
      {["ECG" := 1]} 2 1 = Ok rows
    /\ length rows = 2%nat.
Proof.
  apply (hr_windows_total Sample.percentile Sample.mean
           [0; 10; 20; 30; 40] [1; 5; 1; 5]%float {["ECG" := 1]} 1 2 1).
  - intros w Hw. now apply sample_percentile_defined.
  - reflexivity.
  - lia.
  - lia.
  - simpl. lia.
Defined.

(** X4, run. *)
Lemma calculate_hr_total_witness :
  exists hr,
    calculate_hr Sample.unit_gain_design Sample.lfilter Sample.percentile Sample.mean
      Sample.one_sample_per_bucket Sample.one_sample_per_bucket
      [(0, 1%float); (10, 2%float); (20, 4%float)] {["ECG" := 250]} 15 5
    = Ok (hr, <["ECG" := 100]> {["ECG" := 250]}).
Proof.
  apply (calculate_hr_total Sample.unit_gain_design Sample.lfilter Sample.percentile
           Sample.mean Sample.one_sample_per_bucket Sample.one_sample_per_bucket
           _ _ 15 5 ([1%float], [1%float])).
  - reflexivity.
  - intros x. eexists. split; [reflexivity | apply sample_lfilter_run_length].
  - intros w Hw. now apply sample_percentile_defined.
  - lia.
  - lia.
Defined.

(** X5, run. *)
Lemma hr_windows_short_recording_witness :
  hr_windows Sample.percentile Sample.mean [0; 10; 20; 30] [1; 2; 3]%float
    {["ECG" := 100]} 15 5 = Ok [].
Proof.
  apply (hr_windows_short_recording Sample.percentile Sample.mean _ _ _ 100);
    [reflexivity | lia | unfold len; simpl; lia].
Defined.

(** X6, run. *)
Lemma zero_stride_raises_witness :
  hr_windows Sample.percentile Sample.mean [0; 10; 20; 30] [1; 2; 3]%float
    {["ECG" := 100; "Accelerometer_X" := 25]} 15 0 = Raise ValueError
  /\ rr_windows Sample.rfft Sample.cabs Sample.median [0; 10; 20; 30] [1; 2; 3]%float
       {["ECG" := 100; "Accelerometer_X" := 25]} 15 0 = Raise ValueError.
Proof.
  apply (zero_stride_raises Sample.rfft Sample.cabs Sample.percentile Sample.median
           Sample.mean _ _ _ 100 25); reflexivity.
Defined.

Lemma grid_lookup (n : nat) (dt : Z) (j : nat) (x : Z) :
  map (fun k => Z.of_nat k * dt) (seq 0 n) !! j = Some x -> x = 0 + Z.of_nat j * dt.
Proof.
  rewrite list_lookup_fmap. destruct (seq 0 n !! j) as [k|] eqn:E; [|discriminate].
  apply lookup_seq in E as [-> _]. cbn. intros H. inversion H. lia.
Qed.

(** X7, run. *)
Lemma hr_rows_on_grid_witness :
  hr_windows Sample.percentile Sample.mean
    (map (fun k => Z.of_nat k * 10) (seq 0 102)) (repeat 0%float 101)
    (<["ECG" := 100]> ∅) 1 1 = Ok [(1000, nan)]
  /\ 1000 = 0 + (Z.of_nat 0 * (100 * 1) + 1 * 100) * 10.
Proof.
  assert (hr_windows Sample.percentile Sample.mean
            (map (fun k => Z.of_nat k * 10) (seq 0 102)) (repeat 0%float 101)
            (<["ECG" := 100]> ∅) 1 1 = Ok [(1000, nan)]) as H
    by (vm_compute; reflexivity).
  split; [exact H|].
  assert (0 <= 1) as Hpos by lia.
  apply (hr_rows_on_grid Sample.percentile Sample.mean _ _ _ 1 1 0 10 _
           (grid_lookup 102 10) Hpos Hpos H 0%nat 1000 nan eq_refl).
Defined.

(** X8, run. *)
Lemma rr_rows_on_grid_witness :
  rr_windows Sample.rfft Sample.cabs Sample.median
    (map (fun k => Z.of_nat k * 500) (seq 0 10))
    [1; 2; 1; 0; 1; 2; 1; 0; 1; 3]%float
    {["ECG" := 4; "Accelerometer_X" := 2]} 2 1
  = Ok [(2000, 30%float); (4000, 30%float)]
  /\ 4000 = 0 + (Z.of_nat 1 * (1 * 4) + 2 * 2) * 500.
Proof.
  assert (rr_windows Sample.rfft Sample.cabs Sample.median
            (map (fun k => Z.of_nat k * 500) (seq 0 10))
            [1; 2; 1; 0; 1; 2; 1; 0; 1; 3]%float
            {["ECG" := 4; "Accelerometer_X" := 2]} 2 1
          = Ok [(2000, 30%float); (4000, 30%float)]) as H
    by (vm_compute; reflexivity).
  split; [exact H|].
  apply (rr_rows_on_grid Sample.rfft Sample.cabs Sample.median
           (map (fun k => Z.of_nat k * 500) (seq 0 10))
           [1; 2; 1; 0; 1; 2; 1; 0; 1; 3]%float
           {["ECG" := 4; "Accelerometer_X" := 2]} 4 2 2 1 0 500
           [(2000, 30%float); (4000, 30%float)])
    with (k := 1%nat) (v := 30%float);
    [exact (grid_lookup 10 500) | reflexivity | reflexivity | lia | lia
    | exact H | reflexivity].
Defined.

(** X2, run. *)
Lemma nan_percentile_no_beats_witness :
  Sample.percentile [1; nan; 2]%float 99 = Ok nan
  /\ detect_beats Sample.percentile [1; nan; 2]%float = Ok [].
Proof.
  split; [reflexivity|].
  apply (nan_percentile_no_beats Sample.percentile _ nan); reflexivity.
Defined.

(** X11, run. *)
Lemma spectrum_needs_two_samples_witness :
  spectrum Sample.rfft Sample.cabs [3; 1]%float 2
  = Ok ([4 / 1000; 2 / 1000]%float, [0; 1]%float, 0%float, (4 / 1000)%float)
  /\ 2 <= len [3; 1]%float
  /\ 2 <> 0
  /\ length [0; 1]%float = Z.to_nat (len [3; 1]%float / 2 + 1)
  /\ exists mag,
      Sample.rfft [3; 1]%float = Ok mag
      /\ length [4 / 1000; 2 / 1000]%float = length mag.
Proof.
  assert (spectrum Sample.rfft Sample.cabs [3; 1]%float 2
          = Ok ([4 / 1000; 2 / 1000]%float, [0; 1]%float, 0%float, (4 / 1000)%float))
    as H by (vm_compute; reflexivity).
  split; [exact H|].
  exact (spectrum_needs_two_samples Sample.rfft Sample.cabs _ _ _ _ _ _ H).
Defined.

(** X12, run. *)
Lemma spectrum_peak_amplitude_at_peak_bin_witness :
  spectrum Sample.rfft Sample.cabs [3; 1]%float 2
  = Ok ([4 / 1000; 2 / 1000]%float, [0; 1]%float, 0%float, (4 / 1000)%float)
  /\ exists (k : nat) (f1 : float),
      [0; 1]%float !! 1%nat = Some f1
      /\ 0%float = (float_of_Z (Z.of_nat k) * f1)%float
      /\ [4 / 1000; 2 / 1000]%float !! k = Some (4 / 1000)%float.
Proof.
  assert (spectrum Sample.rfft Sample.cabs [3; 1]%float 2
          = Ok ([4 / 1000; 2 / 1000]%float, [0; 1]%float, 0%float, (4 / 1000)%float))
    as H by (vm_compute; reflexivity).
  split; [exact H|].
  apply (spectrum_peak_amplitude_at_peak_bin Sample.rfft Sample.cabs _ _ _ _ _ _ H).
  intros v [<- | [<- | []]]; reflexivity.
Defined.

(** X10, run. *)
Lemma rr_windows_short_window_witness :
  rr_windows Sample.rfft Sample.cabs Sample.median [0; 10; 20; 30; 40]
    [1; 5; 1; 5]%float {["ECG" := 1; "Accelerometer_X" := 1]} 1 1
  = Raise IndexError
  /\ rr_windows Sample.rfft Sample.cabs Sample.median [0; 10; 20; 30; 40]
       [1; 5; 1; 5]%float {["ECG" := 1; "Accelerometer_X" := 1]} 1 1
     <> Ok [].
Proof.
  split; [vm_compute; reflexivity|].
  apply (rr_windows_short_window Sample.rfft Sample.cabs Sample.median _ _ _ 1 1);
    [reflexivity | reflexivity | lia | lia | unfold len; simpl; lia].
Defined.

(** X17, run. *)
Lemma missing_sample_is_tilt_witness :
  position_of (classify_row Sample.arcsin Sample.arccos (mk_acc_row 0 nan nan nan nan nan))
  = TILT
  /\ Pos_value (position_of (classify_row Sample.arcsin Sample.arccos
                               (mk_acc_row 0 nan nan nan nan nan))) = 2.
Proof. apply missing_sample_is_tilt; reflexivity. Defined.

(** X18, run. *)
Lemma classify_row_in_range_witness :
  clip_sample (mk_acc_row 0 0.1 0.2 0.9 1 1.2) = (0.1, 0.2, 0.9)%float
  /\ classify_row Sample.arcsin Sample.arccos (mk_acc_row 0 0.1 0.2 0.9 1 1.2)
     = classify Sample.arcsin Sample.arccos 0.1 0.2 0.9.
Proof.
  apply (classify_row_in_range Sample.arcsin Sample.arccos
           (mk_acc_row 0 0.1 0.2 0.9 1 1.2)); reflexivity.
Defined.

(** X19, run. *)
Lemma side_position_by_raw_reading_witness :
  (position_of (classify_row Sample.arcsin Sample.arccos (mk_acc_row 0 0.2 (-3) 2 0 0))
   = LEFT_SIDE
   <-> (-3 <? -0.5)%float = true)
  /\ (position_of (classify_row Sample.arcsin Sample.arccos (mk_acc_row 0 0.2 (-3) 2 0 0))
      = RIGHT_SIDE
      <-> (0.5 <? -3)%float = true).
Proof.
  apply (side_position_by_raw_reading Sample.arcsin Sample.arccos
           (mk_acc_row 0 0.2 (-3) 2 0 0)).
  reflexivity.
Defined.

(** X13, run: 530 accelerometer rows at 1 Hz under a header that gives the
    ECG 250 Hz: two windows of 25 samples, starting at the rows 0 and
    500. *)
Lemma process_recording_rr_stride_witness :
  exists rows : list (Z * float),
    py_range 0 (len (map total (swaying_rows 530)) - 25 * 1) 500 = Ok [0; 500]
    /\ length rows = 2%nat
    /\ forall k row,
        rows !! k = Some row ->
        rr_window Sample.rfft Sample.cabs Sample.median
          (map time (swaying_rows 530)) (map total (swaying_rows 530)) 1 (25 * 1)
          (Z.of_nat k * 500) = Ok row.
Proof.
  destruct (process_recording Sample.unit_gain_design Sample.lfilter
              Sample.rfft Sample.cabs Sample.percentile Sample.median Sample.mean
              Sample.arcsin Sample.arccos Sample.one_sample_per_bucket
              Sample.one_sample_per_bucket Sample.one_sample_per_bucket
              [(0, 1%float); (10, 2%float); (20, 4%float)] (swaying_rows 530)
              {["ECG" := 250; "Accelerometer_X" := 1]}) as [out|e] eqn:E;
    [|vm_compute in E; discriminate].
  destruct (process_recording_rr_stride _ _ _ _ _ _ _ _ _ _ _ _ _ _ _ _ E)
    as (rate_acc & starts & rows & Ha & Hs & _ & Hl & Hrows & _).
  vm_compute in Ha. inversion Ha; subst rate_acc.
  assert (starts = [0; 500]) as -> by (vm_compute in Hs; now inversion Hs).
  exists rows. split; [exact Hs|]. split; [exact Hl | exact Hrows].
Defined.
